(** * Temporal-difference update rules (mushroom/algorithms/td.py)

    A shallow embedding of the classes [TD], [QLearning], [DoubleQLearning],
    [WeightedQLearning], [SpeedyQLearning] and [SARSA].

    Conventions of the embedding.
    - Numbers are exact rationals ([Q]); the rounding of numpy's float64 is
      outside the model.  Equality of computed values is [Qeq] ([==]).
      Where rounding decides a property, the lines concerned are replayed
      on binary64 numbers in the module [Binary64].
    - States and actions are the already discretised integer vectors that
      the source obtains with [.astype(np.int)]; on them the conversion of
      lines 150-152 is the identity and cannot fail.
    - An object is a record; a method is a computation in the monad [M],
      which threads the object, may raise a Python exception, and records
      every call made to a collaborator (approximator, learning rate,
      policy) in a log.
    - The outcomes of [np.random.uniform], [np.random.normal] and of the
      policy are arguments of the methods that consume them.
    - The keyword arguments [fit_params] forwarded to the approximator are
      opaque to these classes and are left out. *)

From Stdlib Require Import QArith Qminmax Qround Lqa ZArith List Bool Lia.
From Stdlib Require Import PrimFloat.
From stdpp Require Import base list.
Import ListNotations.

Open Scope Q_scope.

(** ** Transition samples *)

Definition state := list Z.
Definition action := list Z.

(** A sample is the tuple (state, action, reward, next_state, absorbing);
    the source reads it as [sample[0]] ... [sample[4]]. *)
Record sample := mk_sample {
  s_state : state;          (* sample[0] *)
  s_action : action;        (* sample[1] *)
  s_reward : Q;             (* sample[2] *)
  s_next_state : state;     (* sample[3] *)
  s_absorbing : bool        (* sample[4] *)
}.

(** ** Exceptions, collaborator calls and the method monad *)

Inductive exn :=
| AssertionError
| NotImplementedError
| IndexError
| ValueError.

Inductive result (X : Type) :=
| Ok (x : X)
| Raise (e : exn).
Arguments Ok {X} x.
Arguments Raise {X} e.

(** Which approximator object a call is made on: the single approximator
    of the rule, the [i]-th model of an ensemble, or the shadow copy
    [old_q] of SpeedyQLearning. *)
Inductive model_ref :=
| MainModel
| EnsembleModel (i : nat)
| ShadowModel.

Inductive event :=
| EvPredict (m : model_ref) (s : state) (a : action)
| EvPredictAll (m : model_ref) (s : state)
| EvLearningRate (i : nat) (s : state) (a : action)
| EvFit (m : model_ref) (s : state) (a : action) (q : Q)
| EvDrawAction (s : state).

Definition M (S X : Type) : Type := S -> result X * S * list event.

Definition ret {S X} (x : X) : M S X := fun self => (Ok x, self, []).

Definition bind {S X Y} (c : M S X) (k : X -> M S Y) : M S Y :=
  fun self =>
    match c self with
    | (Ok x, self', l) =>
        match k x self' with
        | (r, self'', l') => (r, self'', l ++ l')
        end
    | (Raise e, self', l) => (Raise e, self', l)
    end.

Definition raise {S X} (e : exn) : M S X := fun self => (Raise e, self, []).
Definition gets {S X} (f : S -> X) : M S X := fun self => (Ok (f self), self, []).
Definition modify {S} (f : S -> S) : M S unit := fun self => (Ok tt, f self, []).
Definition emit {S} (ev : event) : M S unit := fun self => (Ok tt, self, [ev]).

Declare Scope py_scope.
Delimit Scope py_scope with py.
Notation "x <- c ;; k" := (bind c (fun x => k))
  (at level 100, c at next level, right associativity) : py_scope.
Notation "c ;;; k" := (bind c (fun _ => k))
  (at level 100, right associativity) : py_scope.
Open Scope py_scope.

(** [assert b] *)
Definition py_assert {S} (b : bool) : M S unit :=
  if b then ret tt else raise AssertionError.

(** [l[i]] on a Python list *)
Definition py_index {S X} (l : list X) (i : nat) : M S X :=
  match l !! i with
  | Some x => ret x
  | None => raise IndexError
  end.

(** The three projections of a finished call. *)
Definition outcome {S X} (r : result X * S * list event) : result X := fst (fst r).
Definition final {S X} (r : result X * S * list event) : S := snd (fst r).
Definition calls {S X} (r : result X * S * list event) : list event := snd r.

(** ** Collaborator interfaces (spec section 6) *)

(** ValueApproximator: [predict], [fit], the ordered [discrete_actions]
    and the [shape] of the discretised state-action space. *)
Class Approximator (A : Type) := {
  predict : A -> state -> action -> Q;
  approximator_fit : A -> state -> action -> Q -> A;
  discrete_actions : A -> list action;
  shape : A -> list nat
}.

(** [predict_all]: the values of all discrete actions, in their order. *)
Definition predict_all {A} `{Approximator A} (approximator : A) (s : state) : list Q :=
  map (predict approximator s) (discrete_actions approximator).

(** LearningRateSchedule: a call returns the step size and may change the
    schedule's own counters. *)
Class LearningRate (L : Type) := {
  learning_rate_call : L -> state -> action -> Q * L
}.

(** ** Comparisons and argmax on rationals *)

Definition Qltb (x y : Q) : bool := negb (Qle_bool y x).

(** First index of a maximal entry (numpy's [argmax]); [bi], [bv] are the
    best index and value so far, [i] the index of the head of [l]. *)
Fixpoint argmax_from (l : list Q) (i bi : nat) (bv : Q) : nat :=
  match l with
  | [] => bi
  | x :: l' => if Qltb bv x then argmax_from l' (S i) i x
               else argmax_from l' (S i) bi bv
  end.

Definition argmax (l : list Q) : option nat :=
  match l with
  | [] => None
  | x :: l' => Some (argmax_from l' 1 0 x)
  end.

(** Modelled from the spec: [max_QA] of mushroom/utils/dataset.py, which is
    not part of the sources at hand.  Spec section 4.7: given a state and
    an approximator, it returns the maximum predicted value over the
    discrete action set and the maximizing action, deterministically on
    ties; the tie-break taken here is first-index-wins, the rule the spec
    suggests.  Every call in td.py passes [False] as second argument, which
    the spec's contract does not describe; it is left out.  An empty action
    set has no maximum: [None]. *)
Definition max_QA {A} `{Approximator A} (next_state : state) (approximator : A)
  : option (Q * action) :=
  match argmax (predict_all approximator next_state) with
  | None => None
  | Some i =>
      match predict_all approximator next_state !! i,
            discrete_actions approximator !! i with
      | Some q, Some a => Some (q, a)
      | _, _ => None
      end
  end.

(** ** TD: the shared base class *)

(** The attributes common to all rules; [ext] holds the attributes a
    subclass adds.  [AT] is the type of [self.approximator] and [LT] the
    type of [self.learning_rate] (a pair of lists for DoubleQLearning). *)
Record TD (AT LT E : Type) := mk_TD {
  approximator : AT;
  learning_rate : LT;
  _gamma : Q;
  ext : E
}.
Arguments mk_TD {AT LT E}.
Arguments approximator {AT LT E}.
Arguments learning_rate {AT LT E}.
Arguments _gamma {AT LT E}.
Arguments ext {AT LT E}.

Definition set_approximator {AT LT E} (a : AT) (self : TD AT LT E) : TD AT LT E :=
  mk_TD a (learning_rate self) (_gamma self) (ext self).
Definition set_learning_rate {AT LT E} (l : LT) (self : TD AT LT E) : TD AT LT E :=
  mk_TD (approximator self) l (_gamma self) (ext self).
Definition set_ext {AT LT E} (e : E) (self : TD AT LT E) : TD AT LT E :=
  mk_TD (approximator self) (learning_rate self) (_gamma self) e.

(** Modelled from the spec: [Agent.__init__] of mushroom/algorithms/agent.py,
    which is outside td.py.  Spec section 3: the rule holds a reference to
    the approximator, and the discount factor is fixed at construction.
    [lr] and [e] are the attributes the subclasses set around the call. *)
Definition Agent_init {AT LT E} (approximator : AT) (gamma : Q) (lr : LT) (e : E)
  : TD AT LT E :=
  mk_TD approximator lr gamma e.

(** [TD.__init__]: takes the learning rate out of the parameters and calls
    the base constructor. *)
Definition TD_init {AT LT E} (approximator : AT) (gamma : Q) (lr : LT) (e : E)
  : TD AT LT E :=
  Agent_init approximator gamma lr e.

Section SingleApproximator.
Context {A L E : Type} `{Approximator A} `{LearningRate L}.

(** [self.approximator.predict(sa)] *)
Definition call_predict (s : state) (a : action) : M (TD A L E) Q :=
  fun self => (Ok (predict (approximator self) s a), self, [EvPredict MainModel s a]).

(** [self.approximator.predict_all(s)] *)
Definition call_predict_all (s : state) : M (TD A L E) (list Q) :=
  fun self => (Ok (predict_all (approximator self) s), self, [EvPredictAll MainModel s]).

(** [self.learning_rate(sa)] *)
Definition call_learning_rate (s : state) (a : action) : M (TD A L E) Q :=
  fun self =>
    (Ok (fst (learning_rate_call (learning_rate self) s a)),
     set_learning_rate (snd (learning_rate_call (learning_rate self) s a)) self,
     [EvLearningRate 0 s a]).

(** [self.approximator.fit(sa, q, **fit_params)] *)
Definition call_fit (s : state) (a : action) (q : Q) : M (TD A L E) unit :=
  fun self =>
    (Ok tt, set_approximator (approximator_fit (approximator self) s a q) self,
     [EvFit MainModel s a q]).

(** [max_QA(next_state, False, self.approximator)] *)
Definition call_max_QA (next_state : state) : M (TD A L E) (Q * action) :=
  fun self =>
    match max_QA next_state (approximator self) with
    | Some r => (Ok r, self, [EvPredictAll MainModel next_state])
    | None => (Raise ValueError, self, [EvPredictAll MainModel next_state])
    end.

(** [TD.fit]; [_next_q] is the method the subclass supplies. *)
Definition TD_fit (_next_q : state -> M (TD A L E) Q)
    (dataset : list sample) (n_iterations : Z) : M (TD A L E) unit :=
  py_assert ((n_iterations =? 1)%Z && (length dataset =? 1)%nat) ;;;
  sample <- py_index dataset 0 ;;
  let s := s_state sample in
  let a := s_action sample in
  q_current <- call_predict s a ;;
  q_next <- (if negb (s_absorbing sample)
             then _next_q (s_next_state sample) else ret 0) ;;
  alpha <- call_learning_rate s a ;;
  gamma <- gets _gamma ;;
  let q := q_current + alpha * (s_reward sample + gamma * q_next - q_current) in
  call_fit s a q.

End SingleApproximator.

(** ** QLearning *)

Section QLearning.
Context {A L : Type} `{Approximator A} `{LearningRate L}.

Definition QLearning_init (approximator : A) (gamma : Q) (lr : L) : TD A L unit :=
  TD_init approximator gamma lr tt.

(** [QLearning._next_q]: the maximum action-value in [next_state]. *)
Definition QLearning_next_q (next_state : state) : M (TD A L unit) Q :=
  r <- call_max_QA next_state ;;
  ret (fst r).

Definition QLearning_fit := TD_fit QLearning_next_q.

End QLearning.

(** ** SARSA *)

Section SARSA.
Context {A L : Type} `{Approximator A} `{LearningRate L}.


(** [SARSA._next_q]; [draw_action] stands for [Agent.draw_action], which is
    outside td.py: the action the policy draws in each state. *)
Definition SARSA_next_q (draw_action : state -> action) (next_state : state)
  : M (TD A L (option action)) Q :=
  emit (EvDrawAction next_state) ;;;
  modify (set_ext (Some (draw_action next_state))) ;;;
  _next_action <- gets ext ;;
  match _next_action with
  | Some a_n => call_predict next_state a_n
  | None => raise ValueError
  end.

Definition SARSA_fit (draw_action : state -> action) :=
  TD_fit (SARSA_next_q draw_action).

End SARSA.

(** ** DoubleQLearning *)

(** [deepcopy]: objects are values here, a copy is the value itself and
    shares nothing with the original. *)
Definition deepcopy {X} (x : X) : X := x.

Section DoubleQLearning.
Context {A L : Type} `{Approximator A} `{LearningRate L}.

(** [self.approximator] is an ensemble ([n_models] is its length, models
    are reached by index) and [self.learning_rate] a two-element list. *)
Definition DoubleQLearning_init (approximator : list A) (gamma : Q) (lr : L)
  : result (TD (list A) (list L) unit) :=
  let self := TD_init approximator gamma lr tt in
  let self := mk_TD approximator
                [deepcopy (learning_rate self); deepcopy (learning_rate self)]
                (_gamma self) (ext self) in
  if (length approximator =? 2)%nat then Ok self else Raise AssertionError.

(** [self.approximator[i].predict(sa)] *)
Definition ensemble_predict (i : nat) (s : state) (a : action)
  : M (TD (list A) (list L) unit) Q :=
  model <- bind (gets approximator) (fun l => py_index l i) ;;
  emit (EvPredict (EnsembleModel i) s a) ;;;
  ret (predict model s a).

(** [self.learning_rate[i](sa)] *)
Definition ensemble_learning_rate (i : nat) (s : state) (a : action)
  : M (TD (list A) (list L) unit) Q :=
  lr <- bind (gets learning_rate) (fun l => py_index l i) ;;
  emit (EvLearningRate i s a) ;;;
  modify (fun self => set_learning_rate
            (<[i := snd (learning_rate_call lr s a)]> (learning_rate self)) self) ;;;
  ret (fst (learning_rate_call lr s a)).

(** [self.approximator[i].fit(sa, q, **fit_params)] *)
Definition ensemble_fit (i : nat) (s : state) (a : action) (q : Q)
  : M (TD (list A) (list L) unit) unit :=
  model <- bind (gets approximator) (fun l => py_index l i) ;;
  emit (EvFit (EnsembleModel i) s a q) ;;;
  modify (fun self => set_approximator
            (<[i := approximator_fit model s a q]> (approximator self)) self).

(** [max_QA(next_state, False, self.approximator[i])] *)
Definition ensemble_max_QA (i : nat) (next_state : state)
  : M (TD (list A) (list L) unit) (Q * action) :=
  model <- bind (gets approximator) (fun l => py_index l i) ;;
  emit (EvPredictAll (EnsembleModel i) next_state) ;;;
  match max_QA next_state model with
  | Some r => ret r
  | None => raise ValueError
  end.

(** [DoubleQLearning._next_q] *)
Definition DoubleQLearning_next_q (next_state : state) (approximator_idx : nat)
  : M (TD (list A) (list L) unit) Q :=
  r <- ensemble_max_QA approximator_idx next_state ;;
  let a_n := snd r in
  ensemble_predict (1 - approximator_idx) next_state a_n.

(** [DoubleQLearning.fit]; [uniform] is the outcome of
    [np.random.uniform()]. *)
Definition DoubleQLearning_fit (uniform : Q)
    (dataset : list sample) (n_iterations : Z) : M (TD (list A) (list L) unit) unit :=
  py_assert ((n_iterations =? 1)%Z && (length dataset =? 1)%nat) ;;;
  sample <- py_index dataset 0 ;;
  let s := s_state sample in
  let a := s_action sample in
  let approximator_idx := if Qltb uniform 0.5 then 0%nat else 1%nat in
  q_current <- ensemble_predict approximator_idx s a ;;
  q_next <- (if negb (s_absorbing sample)
             then DoubleQLearning_next_q (s_next_state sample) approximator_idx
             else ret 0) ;;
  alpha <- ensemble_learning_rate approximator_idx s a ;;
  gamma <- gets _gamma ;;
  let q := q_current + alpha * (s_reward sample + gamma * q_next - q_current) in
  ensemble_fit approximator_idx s a q.

End DoubleQLearning.

(** ** Dense arrays (numpy's ndarray) *)

Record ndarray := mk_ndarray {
  nd_shape : list nat;
  nd_data : list Q          (* row-major *)
}.

Definition size_of (shape : list nat) : nat := fold_right Nat.mul 1%nat shape.

(** [np.zeros(shape)] and [np.ones(shape) * v] *)
Definition np_full (shape : list nat) (v : Q) : ndarray :=
  mk_ndarray shape (replicate (size_of shape) v).

(** The flat position of a full index tuple: every component [i] must lie
    in [-n, n) for its axis of length [n], a negative one counts from the
    end; a component out of range or a tuple longer than the rank is an
    IndexError ([None]).  Only tuples with one component per axis address
    a cell: a shorter tuple, for which numpy yields a sub-array, is not
    modelled ([None] as well), and the properties below that depend on the
    difference are stated for keys of full length. *)
Fixpoint nd_index (shape : list nat) (idx : list Z) : option nat :=
  match shape, idx with
  | [], [] => Some 0%nat
  | n :: shape', i :: idx' =>
      let i' := if (i <? 0)%Z then (i + Z.of_nat n)%Z else i in
      if ((0 <=? i')%Z && (i' <? Z.of_nat n)%Z)%bool then
        match nd_index shape' idx' with
        | Some r => Some (Z.to_nat i' * size_of shape' + r)%nat
        | None => None
        end
      else None
  | _, _ => None
  end.

Definition nd_get (arr : ndarray) (idx : list Z) : option Q :=
  match nd_index (nd_shape arr) idx with
  | Some i => nd_data arr !! i
  | None => None
  end.

Definition nd_set (arr : ndarray) (idx : list Z) (v : Q) : option ndarray :=
  match nd_index (nd_shape arr) idx with
  | Some i => Some (mk_ndarray (nd_shape arr) (<[i := v]> (nd_data arr)))
  | None => None
  end.

(** [arr[arr < bound] = bound], on exact rationals: every entry is below
    the bound or not.  A binary64 nan is not below any bound and passes
    the floor; that case is treated in [Binary64]. *)
Definition nd_floor (bound : Q) (arr : ndarray) : ndarray :=
  mk_ndarray (nd_shape arr)
             (map (fun x => if Qltb x bound then bound else x) (nd_data arr)).

(** [arr * v] *)
Definition nd_scale (v : Q) (arr : ndarray) : ndarray :=
  mk_ndarray (nd_shape arr) (map (fun x => x * v) (nd_data arr)).

(** Reading and writing an array attribute of [self]. *)
Definition array_get {S} (arr : S -> ndarray) (idx : list Z) : M S Q :=
  fun self =>
    match nd_get (arr self) idx with
    | Some v => (Ok v, self, [])
    | None => (Raise IndexError, self, [])
    end.

Definition array_set {S} (arr : S -> ndarray) (upd : ndarray -> S -> S)
    (idx : list Z) (v : Q) : M S unit :=
  fun self =>
    match nd_set (arr self) idx v with
    | Some arr' => (Ok tt, upd arr' self, [])
    | None => (Raise IndexError, self, [])
    end.

Fixpoint mapM {S X Y} (f : X -> M S Y) (l : list X) : M S (list Y) :=
  match l with
  | [] => ret []
  | x :: l' => y <- f x ;; ys <- mapM f l' ;; ret (y :: ys)
  end.

(** ** WeightedQLearning *)

Record WeightedQLearning_attrs := mk_WQL {
  _sampling : bool;
  _precision : Q;
  _n_updates : ndarray;
  _sigma : ndarray;
  _Q : ndarray;
  _Q2 : ndarray;
  _weights_var : ndarray
}.

Definition set_n_updates (arr : ndarray) (w : WeightedQLearning_attrs) :=
  mk_WQL (_sampling w) (_precision w) arr (_sigma w) (_Q w) (_Q2 w) (_weights_var w).
Definition set_sigma (arr : ndarray) (w : WeightedQLearning_attrs) :=
  mk_WQL (_sampling w) (_precision w) (_n_updates w) arr (_Q w) (_Q2 w) (_weights_var w).
Definition set_Q (arr : ndarray) (w : WeightedQLearning_attrs) :=
  mk_WQL (_sampling w) (_precision w) (_n_updates w) (_sigma w) arr (_Q2 w) (_weights_var w).
Definition set_Q2 (arr : ndarray) (w : WeightedQLearning_attrs) :=
  mk_WQL (_sampling w) (_precision w) (_n_updates w) (_sigma w) (_Q w) arr (_weights_var w).
Definition set_weights_var (arr : ndarray) (w : WeightedQLearning_attrs) :=
  mk_WQL (_sampling w) (_precision w) (_n_updates w) (_sigma w) (_Q w) (_Q2 w) arr.

(** The floor of sigma and its initial value. *)
Definition sigma_floor : Q := 1e-10.
Definition sigma_init : Q := 1e10.

(** Matrices of samples: [np.repeat(row, n, 0)] stacks [n] copies of the
    row; [np.random.normal(loc, scale)] draws one value per entry, here
    the value [normal i a mean sigma] for row [i] and column [a]. *)
Definition np_repeat (row : list Q) (n : nat) : list (list Q) := replicate n row.

Definition np_random_normal (normal : nat -> nat -> Q -> Q -> Q)
    (loc scale : list (list Q)) : list (list Q) :=
  imap (fun i ls => imap (fun a ms => normal i a (fst ms) (snd ms))
                         (zip (fst ls) (snd ls)))
       (zip loc scale).

(** [np.dot(w, means.T)[0]] *)
Fixpoint np_dot (w means : list Q) : Q :=
  match w, means with
  | x :: w', m :: means' => x * m + np_dot w' means'
  | _, _ => 0
  end.

(** The tallies of [np.unique(max_idx, return_counts=True)] written into
    [count = np.zeros(size)]. *)
Definition tally (size : nat) (max_idx : list nat) : list Q :=
  map (fun a => inject_Z (Z.of_nat (count_occ Nat.eq_dec max_idx a))) (seq 0 size).

(** The weights of the weighted estimator: [count / self._precision]. *)
Definition WeightedQLearning_weights (precision : Q) (size : nat)
    (max_idx : list nat) : list Q :=
  map (fun c => c / precision) (tally size max_idx).

Section WeightedQLearning.
Context {A L : Type} `{Approximator A} `{LearningRate L}.

(** numpy's square root. *)
Variable np_sqrt : Q -> Q.

Definition WeightedQLearning_init (approximator : A) (gamma : Q) (lr : L)
    (sampling : bool) (precision : Q) : TD A L WeightedQLearning_attrs :=
  TD_init approximator gamma lr
    (mk_WQL sampling precision
       (np_full (shape approximator) 0)
       (nd_scale sigma_init (np_full (shape approximator) 1))
       (np_full (shape approximator) 0)
       (np_full (shape approximator) 0)
       (np_full (shape approximator) 0)).

(** The array attributes as seen from [self]. *)
Definition self_n_updates (self : TD A L WeightedQLearning_attrs) := _n_updates (ext self).
Definition self_sigma (self : TD A L WeightedQLearning_attrs) := _sigma (ext self).
Definition self_Q (self : TD A L WeightedQLearning_attrs) := _Q (ext self).
Definition self_Q2 (self : TD A L WeightedQLearning_attrs) := _Q2 (ext self).
Definition self_weights_var (self : TD A L WeightedQLearning_attrs) := _weights_var (ext self).

Definition upd_n_updates (arr : ndarray) (self : TD A L WeightedQLearning_attrs) :=
  set_ext (set_n_updates arr (ext self)) self.
Definition upd_sigma (arr : ndarray) (self : TD A L WeightedQLearning_attrs) :=
  set_ext (set_sigma arr (ext self)) self.
Definition upd_Q (arr : ndarray) (self : TD A L WeightedQLearning_attrs) :=
  set_ext (set_Q arr (ext self)) self.
Definition upd_Q2 (arr : ndarray) (self : TD A L WeightedQLearning_attrs) :=
  set_ext (set_Q2 arr (ext self)) self.
Definition upd_weights_var (arr : ndarray) (self : TD A L WeightedQLearning_attrs) :=
  set_ext (set_weights_var arr (ext self)) self.

(** The number of copies [np.repeat] makes for the float [precision]: its
    integer part, rounded toward zero.  A negative count is a
    ValueError. *)
Definition np_repeat_count (precision : Q) : Z :=
  Z.quot (Qnum precision) (Z.pos (Qden precision)).

(** [WeightedQLearning._next_q]; [normal] is the outcome of the Gaussian
    draws of this call. *)
Definition WeightedQLearning_next_q (normal : nat -> nat -> Q -> Q -> Q)
    (next_state : state) : M (TD A L WeightedQLearning_attrs) Q :=
  means <- call_predict_all next_state ;;
  sigmas <- mapM (fun a => array_get self_sigma (next_state ++ [Z.of_nat a]))
                 (seq 0 (length means)) ;;
  sampling <- gets (fun self => _sampling (ext self)) ;;
  precision <- gets (fun self => _precision (ext self)) ;;
  if sampling then
    n_draws <- (if (np_repeat_count precision <? 0)%Z then raise ValueError
                else ret (Z.to_nat (np_repeat_count precision))) ;;
    let samples := np_random_normal normal
                     (np_repeat means n_draws)
                     (np_repeat sigmas n_draws) in
    max_idx <- mapM (fun row => match argmax row with
                                | Some i => ret i
                                | None => raise ValueError
                                end) samples ;;
    let w := WeightedQLearning_weights precision (length means) max_idx in
    ret (np_dot w means)
  else raise NotImplementedError.

(** The statistics part of [WeightedQLearning.fit] (lines 165-178). *)
Definition WeightedQLearning_statistics (sa_idx : list Z) (target alpha : Q)
  : M (TD A L WeightedQLearning_attrs) unit :=
  n <- array_get self_n_updates sa_idx ;;
  array_set self_n_updates upd_n_updates sa_idx (n + 1) ;;;
  q_mean <- array_get self_Q sa_idx ;;
  n <- array_get self_n_updates sa_idx ;;
  array_set self_Q upd_Q sa_idx (q_mean + (target - q_mean) / n) ;;;
  q2_mean <- array_get self_Q2 sa_idx ;;
  n <- array_get self_n_updates sa_idx ;;
  array_set self_Q2 upd_Q2 sa_idx (q2_mean + (target ^ 2 - q2_mean) / n) ;;;
  w_var <- array_get self_weights_var sa_idx ;;
  array_set self_weights_var upd_weights_var sa_idx
            ((1 - alpha) ^ 2 * w_var + alpha ^ 2) ;;;
  n <- array_get self_n_updates sa_idx ;;
  if Qltb 1 n then
    q2_mean <- array_get self_Q2 sa_idx ;;
    q_mean <- array_get self_Q sa_idx ;;
    let var := n * (q2_mean - q_mean ^ 2) / (n - 1) in
    w_var <- array_get self_weights_var sa_idx ;;
    let var_estimator := var * w_var in
    array_set self_sigma upd_sigma sa_idx (np_sqrt var_estimator) ;;;
    modify (fun self => upd_sigma (nd_floor sigma_floor (self_sigma self)) self)
  else ret tt.

(** [WeightedQLearning.fit] *)
Definition WeightedQLearning_fit (normal : nat -> nat -> Q -> Q -> Q)
    (dataset : list sample) (n_iterations : Z)
  : M (TD A L WeightedQLearning_attrs) unit :=
  py_assert ((n_iterations =? 1)%Z && (length dataset =? 1)%nat) ;;;
  sample <- py_index dataset 0 ;;
  let s := s_state sample in
  let a := s_action sample in
  let sa_idx := s ++ a in
  q_current <- call_predict s a ;;
  q_next <- (if negb (s_absorbing sample)
             then WeightedQLearning_next_q normal (s_next_state sample)
             else ret 0) ;;
  gamma <- gets _gamma ;;
  let target := s_reward sample + gamma * q_next in
  alpha <- call_learning_rate s a ;;
  let q := q_current + alpha * (target - q_current) in
  call_fit s a q ;;;
  WeightedQLearning_statistics sa_idx target alpha.

End WeightedQLearning.

(** ** SpeedyQLearning *)

Section SpeedyQLearning.
Context {A L : Type} `{Approximator A} `{LearningRate L}.

(** The added attribute is the shadow approximator [old_q]. *)
Definition SpeedyQLearning_init (approximator : A) (gamma : Q) (lr : L)
  : TD A L A :=
  let old_q := deepcopy approximator in
  TD_init approximator gamma lr old_q.

(** [max_QA(next_state, False, self.old_q)] *)
Definition shadow_max_QA (next_state : state) : M (TD A L A) (Q * action) :=
  fun self =>
    match max_QA next_state (ext self) with
    | Some r => (Ok r, self, [EvPredictAll ShadowModel next_state])
    | None => (Raise ValueError, self, [EvPredictAll ShadowModel next_state])
    end.

(** [SpeedyQLearning.fit] *)
Definition SpeedyQLearning_fit (dataset : list sample) (n_iterations : Z)
  : M (TD A L A) unit :=
  py_assert ((n_iterations =? 1)%Z && (length dataset =? 1)%nat) ;;;
  sample <- py_index dataset 0 ;;
  let s := s_state sample in
  let a := s_action sample in
  old_q <- gets (fun self => deepcopy (approximator self)) ;;
  r_cur <- call_max_QA (s_next_state sample) ;;
  let max_q_cur := fst r_cur in
  r_old <- shadow_max_QA (s_next_state sample) ;;
  let max_q_old := fst r_old in
  gamma <- gets _gamma ;;
  let target_cur := s_reward sample + gamma * max_q_cur in
  let target_old := s_reward sample + gamma * max_q_old in
  alpha <- call_learning_rate s a ;;
  q_cur <- call_predict s a ;;
  let q := q_cur + alpha * (target_old - q_cur)
           + (1 - alpha) * (target_cur - target_old) in
  call_fit s a q ;;;
  modify (set_ext old_q).

End SpeedyQLearning.

(** ** Concrete collaborators, to run the rules *)

(** A table-backed approximator: one value per (state, action) cell. *)
Record Tabular := mk_Tabular {
  tab_actions : list action;
  tab_q : ndarray
}.

#[export] Instance Tabular_Approximator : Approximator Tabular := {
  predict t s a := default 0 (nd_get (tab_q t) (s ++ a));
  approximator_fit t s a q :=
    match nd_set (tab_q t) (s ++ a) q with
    | Some arr => mk_Tabular (tab_actions t) arr
    | None => t
    end;
  discrete_actions := tab_actions;
  shape t := nd_shape (tab_q t)
}.

(** A constant step size that counts its own calls. *)
Record Schedule := mk_Schedule {
  lr_value : Q;
  lr_calls : nat
}.

#[export] Instance Schedule_LearningRate : LearningRate Schedule := {
  learning_rate_call l _ _ := (lr_value l, mk_Schedule (lr_value l) (S (lr_calls l)))
}.

(** One state, two actions. *)
Definition table_of (v0 v1 : Q) : Tabular :=
  mk_Tabular [[0%Z]; [1%Z]] (mk_ndarray [1%nat; 2%nat] [v0; v1]).

(** A rational square root for the runs: exact on the squares of the
    multiples of [1e-6], below the true root by less than [1e-6]
    elsewhere. *)
Definition sqrt_approx (x : Q) : Q :=
  Z.sqrt (Qfloor (x * 1e12)) # 1000000.

(** ** Sequences of calls *)

(** The objects a caller sees while it calls [SpeedyQLearning.fit] with
    the given arguments, one call after the other: the object as
    constructed, then the object after each call.  An exception ends the
    run. *)
Fixpoint SpeedyQLearning_run {A L} `{Approximator A} `{LearningRate L}
    (inputs : list (list sample * Z)) (self : TD A L A) : list (TD A L A) :=
  self ::
  match inputs with
  | [] => []
  | (dataset, n_iterations) :: rest =>
      match SpeedyQLearning_fit dataset n_iterations self with
      | (Ok _, self', _) => SpeedyQLearning_run rest self'
      | (Raise _, _, _) => []
      end
  end.

(** The object after a sequence of calls of [WeightedQLearning.fit], each
    with its own Gaussian draws; a caller that catches an exception goes on
    with the object as the failed call left it. *)
Fixpoint WeightedQLearning_run {A L} `{Approximator A} `{LearningRate L}
    (np_sqrt : Q -> Q)
    (inputs : list ((nat -> nat -> Q -> Q -> Q) * list sample * Z))
    (self : TD A L WeightedQLearning_attrs) : TD A L WeightedQLearning_attrs :=
  match inputs with
  | [] => self
  | (normal, dataset, n_iterations) :: rest =>
      WeightedQLearning_run np_sqrt rest
        (final (WeightedQLearning_fit np_sqrt normal dataset n_iterations self))
  end.

(** ** Sums and extrema of lists of rationals *)

Definition Qsum (l : list Q) : Q := fold_right Qplus 0 l.

Definition Qlist_min (l : list Q) : Q :=
  match l with
  | [] => 0
  | x :: l' => fold_right Qmin x l'
  end.

Definition Qlist_max (l : list Q) : Q :=
  match l with
  | [] => 0
  | x :: l' => fold_right Qmax x l'
  end.

(** ** Invariants of computations *)

(** [preserves P c]: whatever [c] does, and whether or not it raises, it
    leaves an object that satisfies [P] in a state that satisfies [P]. *)
Definition preserves {S X} (P : S -> Prop) (c : M S X) : Prop :=
  forall self, P self -> P (final (c self)).

(** The model DoubleQLearning updates for a given outcome of the coin. *)
Definition chosen (uniform : Q) : nat := if Qltb uniform 0.5 then 0%nat else 1%nat.

(** The attributes of the side with index [j] of a DoubleQLearning object,
    as a property of the object. *)
Definition side_is {A L} (j : nat) (m : option A) (l : option L)
    (self : TD (list A) (list L) unit) : Prop :=
  approximator self !! j = m /\ learning_rate self !! j = l.

(** A call that can change a collaborator ([fit], learning rate) is made
    on side [idx]. *)
Definition mutates_side (idx : nat) (ev : event) : Prop :=
  match ev with
  | EvFit m _ _ _ => m = EnsembleModel idx
  | EvLearningRate i _ _ => i = idx
  | _ => True
  end.

(** [quiet c]: [c] makes no call to a collaborator. *)
Definition quiet {S X} (c : M S X) : Prop := forall self, calls (c self) = [].

(** The values handed to an approximator's [fit], in the order of the
    calls. *)
Fixpoint written_values (l : list event) : list Q :=
  match l with
  | [] => []
  | EvFit _ _ _ q :: l' => q :: written_values l'
  | _ :: l' => written_values l'
  end.

(** Every value a finished call of [fit] has written equals [v], and a
    call that returned has written one value. *)
Definition fit_writes {S} (r : result unit * S * list event) (v : Q) : Prop :=
  Forall (fun q => q == v) (written_values (calls r)) /\
  (outcome r = Ok tt -> exists q, written_values (calls r) = [q]).

(** The sample with its absorbing flag replaced. *)
Definition with_absorbing (b : bool) (smp : sample) : sample :=
  mk_sample (s_state smp) (s_action smp) (s_reward smp) (s_next_state smp) b.

(** ** Well-formed statistics and the statistics block in closed form *)

(** An array of the given shape whose data fills it. *)
Definition nd_wf (sh : list nat) (arr : ndarray) : Prop :=
  nd_shape arr = sh /\ length (nd_data arr) = size_of sh.

(** The five arrays of a WeightedQLearning object all have shape [sh], as
    the constructor makes them. *)
Definition WeightedQLearning_wf (sh : list nat) (w : WeightedQLearning_attrs) : Prop :=
  nd_wf sh (_n_updates w) /\ nd_wf sh (_sigma w) /\ nd_wf sh (_Q w) /\
  nd_wf sh (_Q2 w) /\ nd_wf sh (_weights_var w).

(** What lines 165-178 of [WeightedQLearning.fit] make of the attributes
    when the key is the cell at flat position [i]; a closed form of
    [WeightedQLearning_statistics], proved equal to it on well-formed
    objects below. *)
Definition statistics_at (np_sqrt : Q -> Q) (i : nat) (target alpha : Q)
    (w : WeightedQLearning_attrs) : WeightedQLearning_attrs :=
  let cell arr := default 0 (nd_data arr !! i) in
  let put arr v := mk_ndarray (nd_shape arr) (<[i := v]> (nd_data arr)) in
  let n := cell (_n_updates w) + 1 in
  let q_mean := cell (_Q w) + (target - cell (_Q w)) / n in
  let q2_mean := cell (_Q2 w) + (target ^ 2 - cell (_Q2 w)) / n in
  let w_var := (1 - alpha) ^ 2 * cell (_weights_var w) + alpha ^ 2 in
  let sigma :=
    if Qltb 1 n then
      let var := n * (q2_mean - q_mean ^ 2) / (n - 1) in
      let var_estimator := var * w_var in
      nd_floor sigma_floor (put (_sigma w) (np_sqrt var_estimator))
    else _sigma w in
  mk_WQL (_sampling w) (_precision w)
         (put (_n_updates w) n) sigma (put (_Q w) q_mean) (put (_Q2 w) q2_mean)
         (put (_weights_var w) w_var).

(** Every sigma is at least the floor. *)
Definition sigma_floored (w : WeightedQLearning_attrs) : Prop :=
  Forall (fun x => sigma_floor <= x) (nd_data (_sigma w)).

(** A cell that was never visited still has the sigma it was created
    with. *)
Definition unvisited_sigma (w : WeightedQLearning_attrs) : Prop :=
  forall (i : nat) (n : Q),
    nd_data (_n_updates w) !! i = Some n -> n == 0 ->
    nd_data (_sigma w) !! i = Some sigma_init.

Definition counts_nonneg (w : WeightedQLearning_attrs) : Prop :=
  Forall (fun n => 0 <= n) (nd_data (_n_updates w)).

(** What holds of the statistics of every object that was constructed and
    then only changed by [fit]. *)
Definition WeightedQLearning_inv (sh : list nat) (w : WeightedQLearning_attrs) : Prop :=
  WeightedQLearning_wf sh w /\ sigma_floored w /\ unvisited_sigma w /\ counts_nonneg w.

(** ** Concrete objects and samples *)

(** One state [0] and the two actions [0] and [1]. *)
Definition ex_sample : sample := mk_sample [0%Z] [0%Z] 1 [0%Z] false.
Definition ex_absorbing_sample : sample := mk_sample [0%Z] [1%Z] 1 [0%Z] true.
Definition ex_schedule : Schedule := mk_Schedule 0.5 0.

(** The draws of a call, here the mean plus [i] sigmas for draw [i]. *)
Definition ex_normal (i a : nat) (mean sigma : Q) : Q :=
  mean + inject_Z (Z.of_nat i) * sigma.

Definition ex_double : TD (list Tabular) (list Schedule) unit :=
  mk_TD [table_of 0 1; table_of 2 3] [ex_schedule; ex_schedule] 0.5 tt.


Definition ex_weighted : TD Tabular Schedule WeightedQLearning_attrs :=
  WeightedQLearning_init (table_of 0 1) 0.5 ex_schedule true 3.

(** Three calls of [SpeedyQLearning.fit] on a fresh object. *)
Definition ex_speedy_history : list (TD Tabular Schedule Tabular) :=
  SpeedyQLearning_run
    [([ex_sample], 1%Z); ([ex_absorbing_sample], 1%Z); ([ex_sample], 1%Z)]
    (SpeedyQLearning_init (table_of 0 1) 0.5 ex_schedule).

(** ** Reading the call log *)

(** The states in which the policy was asked for an action. *)
Fixpoint drawn_states (l : list event) : list state :=
  match l with
  | [] => []
  | EvDrawAction s :: l' => s :: drawn_states l'
  | _ :: l' => drawn_states l'
  end.

(** The number of calls made to a learning-rate schedule. *)
Fixpoint learning_rate_calls (l : list event) : nat :=
  match l with
  | [] => 0
  | EvLearningRate _ _ _ :: l' => S (learning_rate_calls l')
  | _ :: l' => learning_rate_calls l'
  end.


Definition ex_weighted_no_sampling : TD Tabular Schedule WeightedQLearning_attrs :=
  WeightedQLearning_init (table_of 0 1) 0.5 ex_schedule false 3.

(** In every cell the running mean of the squared targets is at least the
    square of the running mean of the targets, and the weight variance is
    not negative. *)
Definition moments_ok (w : WeightedQLearning_attrs) : Prop :=
  forall (i : nat) (q_mean q2_mean w_var : Q),
    nd_data (_Q w) !! i = Some q_mean ->
    nd_data (_Q2 w) !! i = Some q2_mean ->
    nd_data (_weights_var w) !! i = Some w_var ->
    q_mean * q_mean <= q2_mean /\ 0 <= w_var.

(** Every sample of the dataset has a key with one component per axis of
    the statistics arrays, so that the key addresses a cell (or nothing). *)
Definition full_key (sh : list nat) (dataset : list sample) : Prop :=
  forall smp, In smp dataset -> length (s_state smp ++ s_action smp) = length sh.


(** A precision that is not a whole number, over two actions of mean 5. *)
Definition ex_weighted_fractional : TD Tabular Schedule WeightedQLearning_attrs :=
  WeightedQLearning_init (table_of 5 5) 0.5 ex_schedule true (5 # 2).

(** ** The statistics of one cell, over any arithmetic *)

(** Lines 165-178 of [WeightedQLearning.fit] read and write the five
    arrays at the key of the sample only, apart from the floor of the last
    line, which at that key replaces a sigma below [1e-10].  The section
    writes these lines once, over a type of numbers with its operations,
    so that they can be run on exact rationals and on binary64 numbers. *)
Section CellStatistics.
Variable F : Type.
Variables (one floor : F).
Variables (add sub mul div : F -> F -> F) (sqrt : F -> F) (ltb : F -> F -> bool).

(** The entries of the five arrays at one key. *)
Record cell := mk_cell {
  c_n_updates : F;
  c_Q : F;
  c_Q2 : F;
  c_weights_var : F;
  c_sigma : F
}.

(** [x ** 2.] is [x * x]. *)
Definition cell_statistics (target alpha : F) (c : cell) : cell :=
  let n := add (c_n_updates c) one in
  let q_mean := add (c_Q c) (div (sub target (c_Q c)) n) in
  let q2_mean := add (c_Q2 c) (div (sub (mul target target) (c_Q2 c)) n) in
  let w_var := add (mul (mul (sub one alpha) (sub one alpha)) (c_weights_var c))
                   (mul alpha alpha) in
  if ltb one n then
    let var := div (mul n (sub q2_mean (mul q_mean q_mean))) (sub n one) in
    let var_estimator := mul var w_var in
    let s := sqrt var_estimator in
    mk_cell n q_mean q2_mean w_var (if ltb s floor then floor else s)
  else mk_cell n q_mean q2_mean w_var (c_sigma c).

End CellStatistics.

Arguments mk_cell {F}.
Arguments c_n_updates {F}.
Arguments c_Q {F}.
Arguments c_Q2 {F}.
Arguments c_weights_var {F}.
Arguments c_sigma {F}.

(** The cell at flat position [i] of a WeightedQLearning object. *)
Definition cell_of (i : nat) (w : WeightedQLearning_attrs) : cell Q :=
  let at_i arr := default 0 (nd_data arr !! i) in
  mk_cell (at_i (_n_updates w)) (at_i (_Q w)) (at_i (_Q2 w))
          (at_i (_weights_var w)) (at_i (_sigma w)).

(** The statistics of one cell on exact rationals. *)
Definition exact_statistics (np_sqrt : Q -> Q) : Q -> Q -> cell Q -> cell Q :=
  cell_statistics Q 1 sigma_floor Qplus Qminus Qmult Qdiv np_sqrt Qltb.

(** ** The statistics of one cell on binary64 numbers *)

Module Binary64.
#[local] Set Warnings "-inexact-float".
#[local] Open Scope float_scope.

Definition sigma_floor : float := 1e-10.

(** The cell as [WeightedQLearning.__init__] creates it (lines 139-143). *)
Definition init : cell float := mk_cell 0 0 0 0 1e10.

(** The target of an absorbing sample (lines 155-157): [q_next] is [0.]. *)
Definition absorbing_target (reward gamma : float) : float := reward + gamma * 0.

(** Lines 165-178 on binary64 numbers: [np.sqrt] of a negative number is
    nan, and every comparison with nan is false. *)
Definition statistics : float -> float -> cell float -> cell float :=
  cell_statistics float 1 sigma_floor PrimFloat.add PrimFloat.sub PrimFloat.mul
                  PrimFloat.div PrimFloat.sqrt PrimFloat.ltb.

(** Two calls of [fit] on absorbing samples of one key, with rewards
    [0.3] and [0.1 + 0.2], discount 0.9 and step size 0.5. *)
Definition after_two_visits : cell float :=
  statistics (absorbing_target (0.1 + 0.2) 0.9) 0.5
    (statistics (absorbing_target 0.3 0.9) 0.5 init).

End Binary64.

(** * Properties *)

(** ** The method monad *)

Lemma bind_ok {S X Y} (c : M S X) (k : X -> M S Y) self x self' l :
  c self = (Ok x, self', l) ->
  bind c k self = (outcome (k x self'), final (k x self'), l ++ calls (k x self')).
Proof.
  intros Hc. unfold bind, outcome, final, calls. rewrite Hc.
  destruct (k x self') as [[r s2] l2]. reflexivity.
Qed.

Lemma bind_raise {S X Y} (c : M S X) (k : X -> M S Y) self e self' l :
  c self = (Raise e, self', l) ->
  bind c k self = (Raise e, self', l).
Proof. intros Hc. unfold bind. rewrite Hc. reflexivity. Qed.

Lemma triple_eta {S X} (r : result X * S * list event) :
  r = (outcome r, final r, calls r).
Proof. destruct r as [[o s] l]. reflexivity. Qed.

Lemma final_bind {S X Y} (c : M S X) (k : X -> M S Y) self :
  final (bind c k self) =
  match outcome (c self) with
  | Ok x => final (k x (final (c self)))
  | Raise _ => final (c self)
  end.
Proof.
  unfold bind, final, outcome. destruct (c self) as [[[x|e] s1] l]; simpl.
  - destruct (k x s1) as [[r s2] l2]. reflexivity.
  - reflexivity.
Qed.

Section Preserves.
Context {S : Type} (P : S -> Prop).

Lemma preserves_bind {X Y} (c : M S X) (k : X -> M S Y) :
  preserves P c -> (forall x, preserves P (k x)) -> preserves P (bind c k).
Proof.
  intros Hc Hk self HP. rewrite final_bind.
  destruct (outcome (c self)); [apply Hk|]; apply Hc; exact HP.
Qed.

Lemma preserves_ret {X} (x : X) : preserves P (ret x).
Proof. intros self HP. exact HP. Qed.

Lemma preserves_raise {X} (e : exn) : preserves P (@raise S X e).
Proof. intros self HP. exact HP. Qed.

Lemma preserves_gets {X} (f : S -> X) : preserves P (gets f).
Proof. intros self HP. exact HP. Qed.

Lemma preserves_emit (ev : event) : preserves P (emit ev).
Proof. intros self HP. exact HP. Qed.

Lemma preserves_modify (f : S -> S) :
  (forall self, P self -> P (f self)) -> preserves P (modify f).
Proof. intros Hf self HP. apply Hf, HP. Qed.

Lemma preserves_py_assert (b : bool) : preserves P (py_assert b).
Proof. destruct b; intros self HP; exact HP. Qed.

Lemma preserves_py_index {X} (l : list X) (i : nat) : preserves P (py_index l i).
Proof. unfold py_index. destruct (l !! i); intros self HP; exact HP. Qed.

Lemma preserves_array_get (arr : S -> ndarray) (idx : list Z) :
  preserves P (array_get arr idx).
Proof.
  intros self HP. unfold array_get. destruct (nd_get (arr self) idx); exact HP.
Qed.

Lemma preserves_mapM {X Y} (f : X -> M S Y) (l : list X) :
  (forall x, preserves P (f x)) -> preserves P (mapM f l).
Proof.
  intros Hf. induction l as [|x l IH]; simpl.
  - apply preserves_ret.
  - apply preserves_bind; [apply Hf|]. intros y.
    apply preserves_bind; [apply IH|]. intros ys. apply preserves_ret.
Qed.

End Preserves.

Create HintDb preserves.
Create HintDb quiet.

#[export] Hint Resolve preserves_ret preserves_raise preserves_gets preserves_emit
  preserves_py_assert preserves_py_index preserves_array_get : preserves.

(** Splits a computation along its binds and branches. *)
Ltac preserves_step :=
  lazymatch goal with
  | |- preserves _ (bind _ _) => apply preserves_bind; [|intros ?]
  | |- preserves _ (mapM _ _) => apply preserves_mapM; intros ?
  | |- preserves _ (if ?b then _ else _) => destruct b
  | |- preserves _ (match ?x with _ => _ end) => destruct x
  | |- preserves _ _ => solve [auto with preserves]
  end.

(** ** Comparisons, argmax and the max-action-value helper *)

Lemma Qltb_true x y : Qltb x y = true <-> x < y.
Proof.
  unfold Qltb. rewrite negb_true_iff. split.
  - intros Hb. apply Qnot_le_lt. intros Hle. apply Qle_bool_iff in Hle. congruence.
  - intros Hlt. destruct (Qle_bool y x) eqn:E; [|reflexivity].
    apply Qle_bool_iff in E. exfalso. apply (Qlt_not_le _ _ Hlt E).
Qed.

Lemma Qltb_false x y : Qltb x y = false <-> y <= x.
Proof.
  unfold Qltb. rewrite negb_false_iff. apply Qle_bool_iff.
Qed.

Lemma argmax_from_spec (l : list Q) : forall i bi bv,
  exists v,
    (argmax_from l i bi bv = bi /\ v = bv \/
     exists k, argmax_from l i bi bv = (i + k)%nat /\ l !! k = Some v) /\
    bv <= v /\ Forall (fun x => x <= v) l.
Proof.
  induction l as [|x l IH]; intros i bi bv; simpl.
  - exists bv. split; [left; auto|]. split; [apply Qle_refl | constructor].
  - destruct (Qltb bv x) eqn:E.
    + apply Qltb_true in E.
      destruct (IH (S i) i x) as (v & Hpos & Hle & Hall).
      exists v. split; [|split].
      * right. destruct Hpos as [[-> ->] | (k & -> & Hk)].
        -- exists 0%nat. split; [lia | reflexivity].
        -- exists (S k). split; [lia | exact Hk].
      * apply Qle_trans with x; [apply Qlt_le_weak, E | exact Hle].
      * constructor; [exact Hle | exact Hall].
    + apply Qltb_false in E.
      destruct (IH (S i) bi bv) as (v & Hpos & Hle & Hall).
      exists v. split; [|split].
      * destruct Hpos as [[-> ->] | (k & -> & Hk)].
        -- left. auto.
        -- right. exists (S k). split; [lia | exact Hk].
      * exact Hle.
      * constructor; [apply Qle_trans with bv; assumption | exact Hall].
Qed.

Lemma argmax_spec (l : list Q) :
  l <> [] ->
  exists j v, argmax l = Some j /\ l !! j = Some v /\ Forall (fun x => x <= v) l.
Proof.
  destruct l as [|x l]; [congruence|]. intros _. simpl.
  destruct (argmax_from_spec l 1 0%nat x) as (v & Hpos & Hle & Hall).
  exists (argmax_from l 1 0%nat x), v. split; [reflexivity|]. split.
  - destruct Hpos as [[-> ->] | (k & -> & Hk)]; [reflexivity | exact Hk].
  - constructor; assumption.
Qed.

Section MaxQA.
Context {A : Type} `{Approximator A}.

Lemma max_QA_spec (m : A) (ns : state) :
  discrete_actions m <> [] ->
  exists a, max_QA ns m = Some (predict m ns a, a) /\
            In a (discrete_actions m) /\
            forall a', In a' (discrete_actions m) -> predict m ns a' <= predict m ns a.
Proof.
  intros Hne. unfold max_QA.
  destruct (argmax_spec (predict_all m ns)) as (j & v & Hj & Hv & Hall).
  { unfold predict_all. destruct (discrete_actions m); [congruence | discriminate]. }
  rewrite Hj, Hv. unfold predict_all in Hv, Hall.
  rewrite list_lookup_fmap in Hv.
  destruct (discrete_actions m !! j) as [a|] eqn:Ha; [|discriminate].
  simpl in Hv. injection Hv as <-. exists a. split; [reflexivity|]. split.
  - apply list_elem_of_In. eapply list_elem_of_lookup_2. exact Ha.
  - intros a' Ha'. rewrite Forall_forall in Hall. apply Hall.
    apply list_elem_of_In. apply in_map. exact Ha'.
Qed.
End MaxQA.

(** ** C7: the single-sample precondition *)

Section Preconditions.
Context {A L : Type} `{Approximator A} `{LearningRate L}.

Lemma bad_call_guard (dataset : list sample) (n_iterations : Z) :
  n_iterations <> 1%Z \/ length dataset <> 1%nat ->
  ((n_iterations =? 1)%Z && (length dataset =? 1)%nat)%bool = false.
Proof.
  intros [Hn | Hd].
  - apply Z.eqb_neq in Hn. rewrite Hn. reflexivity.
  - apply Nat.eqb_neq in Hd. rewrite Hd. apply andb_false_r.
Qed.

(** C7.  For every variant, [fit] called with [n_iterations] other than 1
    or with a dataset whose length is not 1 raises AssertionError at once:
    the object (approximators, learning rates, statistics, shadow) is
    exactly as before and no call to any collaborator has been made. *)
Theorem fit_rejects_bad_call (dataset : list sample) (n_iterations : Z) :
  n_iterations <> 1%Z \/ length dataset <> 1%nat ->
  (forall self : TD A L unit,
      QLearning_fit dataset n_iterations self = (Raise AssertionError, self, [])) /\
  (forall uniform (self : TD (list A) (list L) unit),
      DoubleQLearning_fit uniform dataset n_iterations self
      = (Raise AssertionError, self, [])) /\
  (forall np_sqrt normal (self : TD A L WeightedQLearning_attrs),
      WeightedQLearning_fit np_sqrt normal dataset n_iterations self
      = (Raise AssertionError, self, [])) /\
  (forall self : TD A L A,
      SpeedyQLearning_fit dataset n_iterations self = (Raise AssertionError, self, [])) /\
  (forall draw_action (self : TD A L (option action)),
      SARSA_fit draw_action dataset n_iterations self
      = (Raise AssertionError, self, [])).
Proof.
  intros Hbad. apply bad_call_guard in Hbad.
  repeat split; intros;
    unfold QLearning_fit, SARSA_fit, TD_fit, DoubleQLearning_fit,
           WeightedQLearning_fit, SpeedyQLearning_fit;
    rewrite Hbad; reflexivity.
Qed.

End Preconditions.

(** Runs a method on an object whose shape is known, leaving the
    collaborators' functions and the arithmetic folded. *)
Ltac run_py :=
  cbv -[max_QA predict approximator_fit learning_rate_call discrete_actions
        Qplus Qmult Qminus Qdiv Qopp Qinv Qpower Qle Qlt Qeq].

(** Rewrites with a run lemma, whose statement opens with local
    definitions. *)
Ltac rewrite_run lemma :=
  let Hrun := fresh "Hrun" in
  pose proof lemma as Hrun; cbv zeta in Hrun; rewrite Hrun; clear Hrun.

(** ** DoubleQLearning: C8, C4, C3 *)

Section DoubleQLearningProperties.
Context {A L : Type} `{Approximator A} `{LearningRate L}.

Lemma chosen_cases uniform : chosen uniform = 0%nat \/ chosen uniform = 1%nat.
Proof. unfold chosen. destruct (Qltb uniform 0.5); auto. Qed.

Lemma two_elements {X} (l : list X) :
  length l = 2%nat -> exists x0 x1, l = [x0; x1].
Proof.
  destruct l as [|x0 [|x1 [|x2 l]]]; simpl; intros Hl; try discriminate.
  exists x0, x1. reflexivity.
Qed.

(** C8.  Constructing a DoubleQLearning on an ensemble that does not have
    exactly two models raises AssertionError; on an ensemble of two models
    the construction succeeds and holds two copies of the supplied
    learning-rate schedule, and a call of either copy leaves the other
    copy as supplied. *)
Theorem DoubleQLearning_init_two_models (approximator : list A) (gamma : Q) (lr : L) :
  (length approximator <> 2%nat ->
   DoubleQLearning_init approximator gamma lr = Raise AssertionError) /\
  (length approximator = 2%nat ->
   DoubleQLearning_init approximator gamma lr
   = Ok (mk_TD approximator [lr; lr] gamma tt) /\
   forall (i : nat) (s : state) (a : action),
     (i < 2)%nat ->
     learning_rate
       (final (ensemble_learning_rate i s a (mk_TD approximator [lr; lr] gamma tt)))
       !! (1 - i)%nat = Some lr).
Proof.
  unfold DoubleQLearning_init, TD_init, Agent_init, deepcopy. simpl. split.
  - intros Hn. apply Nat.eqb_neq in Hn. rewrite Hn. reflexivity.
  - intros Hn. rewrite Hn. simpl. split; [reflexivity|].
    intros i s a Hi.
    destruct i as [|[|i]]; [reflexivity | reflexivity | lia].
Qed.


Lemma DoubleQLearning_fit_frame (j : nat) m l (uniform : Q)
    (dataset : list sample) (n_iterations : Z) :
  j <> chosen uniform ->
  preserves (side_is j m l) (DoubleQLearning_fit uniform dataset n_iterations).
Proof.
  intros Hj. unfold DoubleQLearning_fit. fold (chosen uniform).
  unfold ensemble_predict, DoubleQLearning_next_q, ensemble_max_QA,
         ensemble_predict, ensemble_learning_rate, ensemble_fit.
  repeat preserves_step.
  all: apply preserves_modify; intros self [Ha Hl]; split; simpl; try assumption.
  all: rewrite list_lookup_insert_ne by congruence; assumption.
Qed.

(** The complete effect of a well-formed call on a two-model object. *)
Lemma DoubleQLearning_fit_run (uniform : Q) (smp : sample)
    (self : TD (list A) (list L) unit) (model other : A) (lr : L) :
  let idx := chosen uniform in
  let s := s_state smp in
  let a := s_action smp in
  let ns := s_next_state smp in
  let q_current := predict model s a in
  let alpha := fst (learning_rate_call lr s a) in
  let q q_next := q_current + alpha * (s_reward smp + _gamma self * q_next - q_current) in
  let self' q_next :=
    mk_TD (<[idx := approximator_fit model s a (q q_next)]> (approximator self))
          (<[idx := snd (learning_rate_call lr s a)]> (learning_rate self))
          (_gamma self) tt in
  length (approximator self) = 2%nat ->
  length (learning_rate self) = 2%nat ->
  approximator self !! idx = Some model ->
  approximator self !! (1 - idx)%nat = Some other ->
  learning_rate self !! idx = Some lr ->
  DoubleQLearning_fit uniform [smp] 1 self =
  if s_absorbing smp then
    (Ok tt, self' 0,
     [EvPredict (EnsembleModel idx) s a; EvLearningRate idx s a;
      EvFit (EnsembleModel idx) s a (q 0)])
  else
    match max_QA ns model with
    | Some (_, a_n) =>
        (Ok tt, self' (predict other ns a_n),
         [EvPredict (EnsembleModel idx) s a; EvPredictAll (EnsembleModel idx) ns;
          EvPredict (EnsembleModel (1 - idx)) ns a_n; EvLearningRate idx s a;
          EvFit (EnsembleModel idx) s a (q (predict other ns a_n))])
    | None =>
        (Raise ValueError, self,
         [EvPredict (EnsembleModel idx) s a; EvPredictAll (EnsembleModel idx) ns])
    end.
Proof.
  intros idx s a ns q_current alpha q self' Hla Hll. subst idx s a ns q_current alpha q self'.
  destruct self as [ms ls gamma []]. simpl in Hla, Hll |- *.
  destruct (two_elements ms Hla) as (m0 & m1 & ->).
  destruct (two_elements ls Hll) as (l0 & l1 & ->).
  unfold DoubleQLearning_fit. fold (chosen uniform).
  destruct smp as [s a r ns ab]. simpl.
  destruct (chosen_cases uniform) as [E | E]; rewrite E; simpl;
    intros Hm Ho Hl; injection Hm as <-; injection Ho as <-; injection Hl as <-.
  - destruct ab; [reflexivity|].
    run_py. destruct (max_QA ns m0) as [[mq a_n]|]; reflexivity.
  - destruct ab; [reflexivity|].
    run_py. destruct (max_QA ns m1) as [[mq a_n]|]; reflexivity.
Qed.

Lemma DoubleQLearning_fit_bad_call (uniform : Q) (dataset : list sample)
    (n_iterations : Z) (self : TD (list A) (list L) unit) :
  n_iterations <> 1%Z \/ length dataset <> 1%nat ->
  DoubleQLearning_fit uniform dataset n_iterations self = (Raise AssertionError, self, []).
Proof.
  intros Hbad. apply bad_call_guard in Hbad.
  unfold DoubleQLearning_fit. rewrite Hbad. reflexivity.
Qed.

Lemma single_sample (dataset : list sample) (n_iterations : Z) :
  (n_iterations <> 1%Z \/ length dataset <> 1%nat) \/
  (n_iterations = 1%Z /\ exists smp, dataset = [smp]).
Proof.
  destruct (Z.eq_dec n_iterations 1%Z) as [->|Hn]; [|left; left; exact Hn].
  destruct dataset as [|smp [|smp' dataset]].
  - left. right. simpl. lia.
  - right. split; [reflexivity|]. exists smp. reflexivity.
  - left. right. simpl. lia.
Qed.

Lemma two_sides (uniform : Q) (self : TD (list A) (list L) unit) :
  length (approximator self) = 2%nat ->
  length (learning_rate self) = 2%nat ->
  exists model other lr,
    approximator self !! chosen uniform = Some model /\
    approximator self !! (1 - chosen uniform)%nat = Some other /\
    learning_rate self !! chosen uniform = Some lr.
Proof.
  intros Hla Hll.
  destruct (two_elements _ Hla) as (m0 & m1 & ->).
  destruct (two_elements _ Hll) as (l0 & l1 & ->).
  destruct (chosen_cases uniform) as [-> | ->]; simpl;
    do 3 eexists; repeat split.
Qed.

(** C4.  A call of [DoubleQLearning.fit] on a two-model object leaves the
    approximator and the learning-rate schedule of the side the coin did
    not select exactly as they were, whatever the call does; a call that
    returns has fitted the selected approximator and called the selected
    schedule, and no fit or learning-rate call went to the other side.  A
    well-formed call returns whenever the sample is absorbing or the
    selected model has at least one action. *)
Theorem DoubleQLearning_fit_one_side (uniform : Q) (dataset : list sample)
    (n_iterations : Z) (self : TD (list A) (list L) unit) :
  length (approximator self) = 2%nat ->
  length (learning_rate self) = 2%nat ->
  let idx := chosen uniform in
  let r := DoubleQLearning_fit uniform dataset n_iterations self in
  (approximator (final r) !! (1 - idx)%nat = approximator self !! (1 - idx)%nat /\
   learning_rate (final r) !! (1 - idx)%nat = learning_rate self !! (1 - idx)%nat) /\
  (outcome r = Ok tt ->
   exists smp model lr q,
     dataset = [smp] /\
     approximator self !! idx = Some model /\
     learning_rate self !! idx = Some lr /\
     approximator (final r)
     = <[idx := approximator_fit model (s_state smp) (s_action smp) q]> (approximator self) /\
     learning_rate (final r)
     = <[idx := snd (learning_rate_call lr (s_state smp) (s_action smp))]>
         (learning_rate self) /\
     In (EvFit (EnsembleModel idx) (s_state smp) (s_action smp) q) (calls r) /\
     In (EvLearningRate idx (s_state smp) (s_action smp)) (calls r) /\
     Forall (mutates_side idx) (calls r)) /\
  (forall smp model,
     dataset = [smp] -> n_iterations = 1%Z ->
     approximator self !! idx = Some model ->
     s_absorbing smp = true \/ discrete_actions model <> [] ->
     outcome r = Ok tt).
Proof.
  intros Hla Hll idx r. split; [|split].
  - apply (DoubleQLearning_fit_frame (1 - idx) _ _ uniform dataset n_iterations).
    + destruct (chosen_cases uniform); subst idx; lia.
    + split; reflexivity.
  - intros Hok.
    destruct (single_sample dataset n_iterations) as [Hbad | [-> [smp ->]]].
    { subst r. rewrite DoubleQLearning_fit_bad_call in Hok by exact Hbad. discriminate. }
    destruct (two_sides uniform self Hla Hll) as (model & other & lr & Hm & Ho & Hl).
    subst r. revert Hok.
    rewrite_run (DoubleQLearning_fit_run uniform smp self model other lr Hla Hll Hm Ho Hl).
    fold idx. exists smp, model, lr.
    destruct (s_absorbing smp).
    + eexists. repeat split; try (simpl; tauto).
      repeat constructor.
    + destruct (max_QA (s_next_state smp) model) as [[mq a_n]|]; [|discriminate].
      eexists. repeat split; try (simpl; tauto).
      repeat constructor.
  - intros smp model -> -> Hm Hact.
    destruct (two_sides uniform self Hla Hll) as (model' & other & lr & Hm' & Ho & Hl).
    fold idx in Hm'. rewrite Hm in Hm'. injection Hm' as <-.
    subst r.
    rewrite_run (DoubleQLearning_fit_run uniform smp self model other lr Hla Hll Hm Ho Hl).
    destruct (s_absorbing smp); [reflexivity|].
    destruct Hact as [Habs | Hne]; [discriminate|].
    destruct (max_QA_spec model (s_next_state smp) Hne) as (a_n & -> & _). reflexivity.
Qed.

(** C3.  On a non-absorbing sample the bootstrap value of DoubleQLearning
    is the prediction of the approximator that is not updated, taken in
    [next_state] at an action of the updated approximator whose predicted
    value in [next_state] no other action exceeds; [fit] writes the value
    computed from the target [reward + gamma * bootstrap]. *)
Theorem DoubleQLearning_bootstrap (uniform : Q) (smp : sample)
    (self : TD (list A) (list L) unit) (model other : A) (lr : L) :
  let idx := chosen uniform in
  let s := s_state smp in
  let a := s_action smp in
  let ns := s_next_state smp in
  length (approximator self) = 2%nat ->
  length (learning_rate self) = 2%nat ->
  approximator self !! idx = Some model ->
  approximator self !! (1 - idx)%nat = Some other ->
  learning_rate self !! idx = Some lr ->
  s_absorbing smp = false ->
  discrete_actions model <> [] ->
  exists a_n,
    In a_n (discrete_actions model) /\
    (forall a', In a' (discrete_actions model) -> predict model ns a' <= predict model ns a_n) /\
    DoubleQLearning_next_q ns idx self
    = (Ok (predict other ns a_n), self,
       [EvPredictAll (EnsembleModel idx) ns; EvPredict (EnsembleModel (1 - idx)) ns a_n]) /\
    let q_next := predict other ns a_n in
    let q_current := predict model s a in
    let alpha := fst (learning_rate_call lr s a) in
    let q := q_current + alpha * (s_reward smp + _gamma self * q_next - q_current) in
    outcome (DoubleQLearning_fit uniform [smp] 1 self) = Ok tt /\
    In (EvFit (EnsembleModel idx) s a q) (calls (DoubleQLearning_fit uniform [smp] 1 self)) /\
    approximator (final (DoubleQLearning_fit uniform [smp] 1 self))
    = <[idx := approximator_fit model s a q]> (approximator self).
Proof.
  intros idx s a ns Hla Hll Hm Ho Hl Habs Hne.
  destruct (max_QA_spec model ns Hne) as (a_n & Hmax & Hin & Hle).
  exists a_n. split; [exact Hin|]. split; [exact Hle|]. split.
  - unfold DoubleQLearning_next_q, ensemble_max_QA, ensemble_predict.
    unfold bind, gets, py_index, emit, ret. simpl.
    fold idx. rewrite Hm. simpl. rewrite Hmax. simpl. rewrite Ho. reflexivity.
  - intros q_next q_current alpha q.
    rewrite_run (DoubleQLearning_fit_run uniform smp self model other lr Hla Hll Hm Ho Hl).
    rewrite Habs. fold ns. rewrite Hmax. simpl.
    split; [reflexivity|]. split; [|reflexivity].
    do 4 right. left. reflexivity.
Qed.

End DoubleQLearningProperties.

(** ** Calls that make no collaborator call *)

Lemma calls_bind {S X Y} (c : M S X) (k : X -> M S Y) self :
  calls (bind c k self) =
  match outcome (c self) with
  | Ok x => calls (c self) ++ calls (k x (final (c self)))
  | Raise _ => calls (c self)
  end.
Proof.
  unfold bind, final, outcome, calls. destruct (c self) as [[[x|e] s1] l]; simpl.
  - destruct (k x s1) as [[r s2] l2]. reflexivity.
  - reflexivity.
Qed.

Lemma outcome_bind {S X Y} (c : M S X) (k : X -> M S Y) self :
  outcome (bind c k self) =
  match outcome (c self) with
  | Ok x => outcome (k x (final (c self)))
  | Raise e => Raise e
  end.
Proof.
  unfold bind, final, outcome. destruct (c self) as [[[x|e] s1] l]; simpl.
  - destruct (k x s1) as [[r s2] l2]. reflexivity.
  - reflexivity.
Qed.

Section Quiet.
Context {S : Type}.

Lemma quiet_bind {X Y} (c : M S X) (k : X -> M S Y) :
  quiet c -> (forall x, quiet (k x)) -> quiet (bind c k).
Proof.
  intros Hc Hk self. rewrite calls_bind, Hc.
  destruct (outcome (c self)); [apply Hk | reflexivity].
Qed.

Lemma quiet_ret {X} (x : X) : quiet (@ret S X x).
Proof. intros self. reflexivity. Qed.

Lemma quiet_raise {X} (e : exn) : quiet (@raise S X e).
Proof. intros self. reflexivity. Qed.

Lemma quiet_gets {X} (f : S -> X) : quiet (gets f).
Proof. intros self. reflexivity. Qed.

Lemma quiet_modify (f : S -> S) : quiet (modify f).
Proof. intros self. reflexivity. Qed.

Lemma quiet_array_get (arr : S -> ndarray) (idx : list Z) : quiet (array_get arr idx).
Proof. intros self. unfold array_get. destruct (nd_get (arr self) idx); reflexivity. Qed.

Lemma quiet_array_set (arr : S -> ndarray) upd (idx : list Z) (v : Q) :
  quiet (array_set arr upd idx v).
Proof. intros self. unfold array_set. destruct (nd_set (arr self) idx v); reflexivity. Qed.

Lemma quiet_mapM {X Y} (f : X -> M S Y) (l : list X) :
  (forall x, quiet (f x)) -> quiet (mapM f l).
Proof.
  intros Hf. induction l as [|x l IH]; simpl.
  - apply quiet_ret.
  - apply quiet_bind; [apply Hf|]. intros y.
    apply quiet_bind; [apply IH|]. intros ys. apply quiet_ret.
Qed.

End Quiet.

#[export] Hint Resolve quiet_ret quiet_raise quiet_gets quiet_modify
  quiet_array_get quiet_array_set : quiet.

Ltac quiet_step :=
  lazymatch goal with
  | |- quiet (bind _ _) => apply quiet_bind; [|intros ?]
  | |- quiet (mapM _ _) => apply quiet_mapM; intros ?
  | |- quiet (if ?b then _ else _) => destruct b
  | |- quiet (match ?x with _ => _ end) => destruct x
  | |- quiet _ => solve [auto with quiet]
  end.

(** ** The complete effect of a well-formed call, rule by rule *)

Section Runs.
Context {A L : Type} `{Approximator A} `{LearningRate L}.

Lemma QLearning_fit_run (smp : sample) (self : TD A L unit) :
  let s := s_state smp in
  let a := s_action smp in
  let ns := s_next_state smp in
  let q_current := predict (approximator self) s a in
  let alpha := fst (learning_rate_call (learning_rate self) s a) in
  let q q_next := q_current + alpha * (s_reward smp + _gamma self * q_next - q_current) in
  let self' q_next :=
    mk_TD (approximator_fit (approximator self) s a (q q_next))
          (snd (learning_rate_call (learning_rate self) s a)) (_gamma self) tt in
  QLearning_fit [smp] 1 self =
  if s_absorbing smp then
    (Ok tt, self' 0,
     [EvPredict MainModel s a; EvLearningRate 0 s a; EvFit MainModel s a (q 0)])
  else
    match max_QA ns (approximator self) with
    | Some (max_q, _) =>
        (Ok tt, self' max_q,
         [EvPredict MainModel s a; EvPredictAll MainModel ns;
          EvLearningRate 0 s a; EvFit MainModel s a (q max_q)])
    | None =>
        (Raise ValueError, self, [EvPredict MainModel s a; EvPredictAll MainModel ns])
    end.
Proof.
  destruct smp as [s a r ns ab], self as [m l g []]. simpl.
  destruct ab; [reflexivity|].
  run_py. destruct (max_QA ns m) as [[mq a_n]|]; reflexivity.
Qed.

Lemma SARSA_fit_run (draw_action : state -> action) (smp : sample)
    (self : TD A L (option action)) :
  let s := s_state smp in
  let a := s_action smp in
  let ns := s_next_state smp in
  let q_current := predict (approximator self) s a in
  let alpha := fst (learning_rate_call (learning_rate self) s a) in
  let q q_next := q_current + alpha * (s_reward smp + _gamma self * q_next - q_current) in
  let self' q_next next_action :=
    mk_TD (approximator_fit (approximator self) s a (q q_next))
          (snd (learning_rate_call (learning_rate self) s a)) (_gamma self)
          next_action in
  SARSA_fit draw_action [smp] 1 self =
  if s_absorbing smp then
    (Ok tt, self' 0 (ext self),
     [EvPredict MainModel s a; EvLearningRate 0 s a; EvFit MainModel s a (q 0)])
  else
    let a_n := draw_action ns in
    let q_next := predict (approximator self) ns a_n in
    (Ok tt, self' q_next (Some a_n),
     [EvPredict MainModel s a; EvDrawAction ns; EvPredict MainModel ns a_n;
      EvLearningRate 0 s a; EvFit MainModel s a (q q_next)]).
Proof.
  destruct smp as [s a r ns ab], self as [m l g e]. simpl.
  destruct ab; reflexivity.
Qed.

Lemma SpeedyQLearning_fit_run (smp : sample) (self : TD A L A) :
  let s := s_state smp in
  let a := s_action smp in
  let ns := s_next_state smp in
  SpeedyQLearning_fit [smp] 1 self =
  match max_QA ns (approximator self) with
  | None => (Raise ValueError, self, [EvPredictAll MainModel ns])
  | Some (max_q_cur, _) =>
      match max_QA ns (ext self) with
      | None =>
          (Raise ValueError, self,
           [EvPredictAll MainModel ns; EvPredictAll ShadowModel ns])
      | Some (max_q_old, _) =>
          let target_cur := s_reward smp + _gamma self * max_q_cur in
          let target_old := s_reward smp + _gamma self * max_q_old in
          let alpha := fst (learning_rate_call (learning_rate self) s a) in
          let q_cur := predict (approximator self) s a in
          let q := q_cur + alpha * (target_old - q_cur)
                   + (1 - alpha) * (target_cur - target_old) in
          (Ok tt,
           mk_TD (approximator_fit (approximator self) s a q)
                 (snd (learning_rate_call (learning_rate self) s a)) (_gamma self)
                 (approximator self),
           [EvPredictAll MainModel ns; EvPredictAll ShadowModel ns;
            EvLearningRate 0 s a; EvPredict MainModel s a; EvFit MainModel s a q])
      end
  end.
Proof.
  destruct smp as [s a r ns ab], self as [m l g e]. simpl.
  run_py. destruct (max_QA ns m) as [[mc a_c]|]; [|reflexivity].
  destruct (max_QA ns e) as [[mo a_o]|]; reflexivity.
Qed.

End Runs.

Section WeightedQLearningRuns.
Context {A L : Type} `{Approximator A} `{LearningRate L}.
Variable np_sqrt : Q -> Q.

Lemma WeightedQLearning_next_q_run (normal : nat -> nat -> Q -> Q -> Q)
    (ns : state) (self : TD A L WeightedQLearning_attrs) :
  WeightedQLearning_next_q normal ns self
  = (outcome (WeightedQLearning_next_q normal ns self), self, [EvPredictAll MainModel ns]).
Proof.
  rewrite (triple_eta (WeightedQLearning_next_q normal ns self)) at 1.
  f_equal; [f_equal|].
  - assert (Hp : preserves (fun s => s = self) (WeightedQLearning_next_q normal ns)).
    { unfold WeightedQLearning_next_q. repeat preserves_step.
      intros s Hs. exact Hs. }
    apply Hp. reflexivity.
  - unfold WeightedQLearning_next_q. rewrite calls_bind. simpl.
    match goal with |- _ :: calls (?c _) = _ => assert (Hq : quiet c) end.
    { repeat quiet_step. }
    rewrite Hq. reflexivity.
Qed.

Lemma quiet_run {S X} (c : M S X) :
  quiet c -> forall self, c self = (outcome (c self), final (c self), []).
Proof. intros Hq self. rewrite (triple_eta (c self)) at 1. rewrite Hq. reflexivity. Qed.

Lemma WeightedQLearning_statistics_quiet (sa_idx : list Z) (target alpha : Q) :
  quiet (WeightedQLearning_statistics (A := A) (L := L) np_sqrt sa_idx target alpha).
Proof. unfold WeightedQLearning_statistics. repeat quiet_step. Qed.

(** A well-formed call of [WeightedQLearning.fit]: the shared update,
    then the statistics. *)
Lemma WeightedQLearning_fit_run (normal : nat -> nat -> Q -> Q -> Q)
    (smp : sample) (self : TD A L WeightedQLearning_attrs) :
  let s := s_state smp in
  let a := s_action smp in
  let ns := s_next_state smp in
  let q_current := predict (approximator self) s a in
  let alpha := fst (learning_rate_call (learning_rate self) s a) in
  let target q_next := s_reward smp + _gamma self * q_next in
  let q q_next := q_current + alpha * (target q_next - q_current) in
  let self1 q_next :=
    mk_TD (approximator_fit (approximator self) s a (q q_next))
          (snd (learning_rate_call (learning_rate self) s a)) (_gamma self)
          (ext self) in
  let statistics q_next :=
    WeightedQLearning_statistics np_sqrt (s ++ a) (target q_next) alpha (self1 q_next) in
  WeightedQLearning_fit np_sqrt normal [smp] 1 self =
  if s_absorbing smp then
    (outcome (statistics 0), final (statistics 0),
     [EvPredict MainModel s a; EvLearningRate 0 s a; EvFit MainModel s a (q 0)])
  else
    match outcome (WeightedQLearning_next_q normal ns self) with
    | Ok q_next =>
        (outcome (statistics q_next), final (statistics q_next),
         [EvPredict MainModel s a; EvPredictAll MainModel ns;
          EvLearningRate 0 s a; EvFit MainModel s a (q q_next)])
    | Raise e =>
        (Raise e, self, [EvPredict MainModel s a; EvPredictAll MainModel ns])
    end.
Proof.
  destruct smp as [s a r ns ab], self as [m l g e]. simpl.
  unfold WeightedQLearning_fit. simpl.
  destruct ab; simpl.
  - unfold bind at 1. simpl. unfold bind at 1. simpl. unfold bind at 1. simpl.
    unfold bind at 1. simpl. unfold bind at 1. simpl. unfold bind at 1. simpl.
    unfold bind at 1. simpl.
    rewrite (quiet_run _ (WeightedQLearning_statistics_quiet _ _ _)).
    reflexivity.
  - unfold bind at 1. simpl. unfold bind at 1. simpl. unfold bind at 1. simpl.
    unfold bind at 1. simpl.
    rewrite WeightedQLearning_next_q_run.
    destruct (outcome (WeightedQLearning_next_q normal ns _)) as [q_next|ex]; [|reflexivity].
    simpl. repeat (unfold bind at 1; simpl).
    rewrite (quiet_run _ (WeightedQLearning_statistics_quiet _ _ _)).
    reflexivity.
Qed.

End WeightedQLearningRuns.

(** ** SpeedyQLearning: C1 and C2 *)

Section SpeedyQLearningProperties.
Context {A L : Type} `{Approximator A} `{LearningRate L}.

Lemma SpeedyQLearning_fit_bad_call (dataset : list sample) (n_iterations : Z)
    (self : TD A L A) :
  n_iterations <> 1%Z \/ length dataset <> 1%nat ->
  SpeedyQLearning_fit dataset n_iterations self = (Raise AssertionError, self, []).
Proof.
  intros Hbad. apply bad_call_guard in Hbad.
  unfold SpeedyQLearning_fit. rewrite Hbad. reflexivity.
Qed.

(** [SpeedyQLearning.fit] never reads [sample[4]]. *)
Lemma SpeedyQLearning_fit_ignores_flag (b : bool) (smp : sample) (self : TD A L A) :
  SpeedyQLearning_fit [with_absorbing b smp] 1 self = SpeedyQLearning_fit [smp] 1 self.
Proof.
  rewrite_run (SpeedyQLearning_fit_run (with_absorbing b smp) self).
  rewrite_run (SpeedyQLearning_fit_run smp self). reflexivity.
Qed.

(** A call that returns leaves as shadow the approximator it started
    with. *)
Lemma SpeedyQLearning_fit_shadow (dataset : list sample) (n_iterations : Z)
    (self self' : TD A L A) (l : list event) :
  SpeedyQLearning_fit dataset n_iterations self = (Ok tt, self', l) ->
  ext self' = approximator self.
Proof.
  destruct (single_sample dataset n_iterations) as [Hbad | [-> [smp ->]]].
  { rewrite SpeedyQLearning_fit_bad_call by exact Hbad. discriminate. }
  rewrite_run (SpeedyQLearning_fit_run smp self).
  destruct (max_QA (s_next_state smp) (approximator self)) as [[mc a_c]|];
    [|discriminate].
  destruct (max_QA (s_next_state smp) (ext self)) as [[mo a_o]|]; [|discriminate].
  intros Heq. injection Heq as <- _. reflexivity.
Qed.

Lemma SpeedyQLearning_run_head (inputs : list (list sample * Z)) (self : TD A L A) :
  SpeedyQLearning_run inputs self !! 0%nat = Some self.
Proof. destruct inputs; reflexivity. Qed.

Lemma SpeedyQLearning_run_step (inputs : list (list sample * Z)) :
  forall (self : TD A L A) (k : nat) (before after : TD A L A),
    SpeedyQLearning_run inputs self !! k = Some before ->
    SpeedyQLearning_run inputs self !! S k = Some after ->
    ext after = approximator before.
Proof.
  induction inputs as [|[dataset n_iterations] rest IH]; intros self k before after.
  - destruct k; discriminate.
  - simpl.
    destruct (SpeedyQLearning_fit dataset n_iterations self) as [[[[]|e] self'] l] eqn:Hfit.
    + destruct k as [|k].
      * simpl. rewrite SpeedyQLearning_run_head.
        intros Hb Ha. injection Hb as <-. injection Ha as <-.
        eapply SpeedyQLearning_fit_shadow. exact Hfit.
      * simpl. apply IH.
    + destruct k; discriminate.
Qed.

(** C2.  Count the calls of [SpeedyQLearning.fit] on a freshly constructed
    object from 1, and let the history list the object as constructed and
    then as each call left it.  When a call ends, the shadow [old_q] is the
    approximator as it was when that call began.  Hence at the start of
    call [k] the shadow is the approximator as it was after call [k - 2];
    for [k <= 2] that is the approximator the object was constructed
    with. *)
Theorem SpeedyQLearning_shadow_lags (approximator0 : A) (gamma : Q) (lr : L)
    (inputs : list (list sample * Z)) :
  let history := SpeedyQLearning_run inputs (SpeedyQLearning_init approximator0 gamma lr) in
  (forall (k : nat) (before after : TD A L A),
      (1 <= k)%nat ->
      history !! (k - 1)%nat = Some before ->
      history !! k = Some after ->
      ext after = approximator before) /\
  (forall (k : nat) (at_start : TD A L A),
      (1 <= k)%nat ->
      history !! (k - 1)%nat = Some at_start ->
      ((k <= 2)%nat -> ext at_start = approximator0) /\
      ((2 <= k)%nat ->
       exists after_k_minus_2,
         history !! (k - 2)%nat = Some after_k_minus_2 /\
         ext at_start = approximator after_k_minus_2)).
Proof.
  intros history.
  assert (Hstep : forall k before after,
             history !! k = Some before -> history !! S k = Some after ->
             ext after = approximator before)
    by (intros k before after; apply SpeedyQLearning_run_step).
  assert (Hhead : history !! 0%nat = Some (SpeedyQLearning_init approximator0 gamma lr))
    by apply SpeedyQLearning_run_head.
  split.
  - intros k before after Hk Hb Ha.
    destruct k as [|k]; [lia|]. replace (S k - 1)%nat with k in Hb by lia.
    eapply Hstep; eassumption.
  - intros k at_start Hk Hs. split.
    + intros Hk2. destruct k as [|[|[|k]]]; try lia.
      * simpl in Hs. rewrite Hhead in Hs. injection Hs as <-. reflexivity.
      * simpl in Hs. rewrite (Hstep 0%nat _ _ Hhead Hs). reflexivity.
    + intros Hk2. destruct k as [|[|k]]; try lia.
      replace (S (S k) - 1)%nat with (S k) in Hs by lia.
      replace (S (S k) - 2)%nat with k by lia.
      destruct (history !! k) as [st|] eqn:Hst.
      * exists st. split; [reflexivity|]. eapply Hstep; eassumption.
      * apply lookup_ge_None in Hst. apply lookup_lt_Some in Hs. lia.
Qed.

End SpeedyQLearningProperties.

(** C1.  [SpeedyQLearning.fit] computes the same thing whatever the
    absorbing flag of the sample is.  On the absorbing sample
    (state [0], action [0], reward 0, next state [0]) with gamma 1/2, a step
    size 1/2 and a table holding 0 and 1 for the two actions, it asks both
    the approximator and the shadow for their values in the next state and
    writes 1/4, whereas the target [reward] gives
    [q_current + alpha * (reward - q_current) = 0]. *)
Theorem SpeedyQLearning_bootstraps_when_absorbing :
  (forall (A L : Type) (HA : Approximator A) (HL : LearningRate L)
          (smp : sample) (self : TD A L A),
      SpeedyQLearning_fit [with_absorbing true smp] 1 self
      = SpeedyQLearning_fit [with_absorbing false smp] 1 self) /\
  let smp := mk_sample [0%Z] [0%Z] 0 [0%Z] true in
  let self := SpeedyQLearning_init (table_of 0 1) 0.5 (mk_Schedule 0.5 0) in
  let q_current := predict (approximator self) [0%Z] [0%Z] in
  let alpha := fst (learning_rate_call (learning_rate self) [0%Z] [0%Z]) in
  exists q,
    calls (SpeedyQLearning_fit [smp] 1 self)
    = [EvPredictAll MainModel [0%Z]; EvPredictAll ShadowModel [0%Z];
       EvLearningRate 0 [0%Z] [0%Z]; EvPredict MainModel [0%Z] [0%Z];
       EvFit MainModel [0%Z] [0%Z] q] /\
    q == 1 # 4 /\
    q_current + alpha * (s_reward smp - q_current) == 0 /\
    ~ q == q_current + alpha * (s_reward smp - q_current).
Proof.
  split.
  - intros A L HA HL smp self.
    rewrite (SpeedyQLearning_fit_ignores_flag true smp self).
    rewrite (SpeedyQLearning_fit_ignores_flag false smp self). reflexivity.
  - eexists. split; [vm_compute; reflexivity|].
    split; [reflexivity|]. split; [reflexivity|]. intros Hq. discriminate Hq.
Qed.

(** ** WeightedQLearning: the statistics block *)

Lemma nd_index_lt (sh : list nat) : forall (idx : list Z) (i : nat),
  nd_index sh idx = Some i -> (i < size_of sh)%nat.
Proof.
  induction sh as [|n sh IH]; intros idx i; destruct idx as [|z idx]; simpl;
    try discriminate.
  - intros Hi. injection Hi as <-. lia.
  - set (z' := if (z <? 0)%Z then (z + Z.of_nat n)%Z else z).
    destruct ((0 <=? z')%Z && (z' <? Z.of_nat n)%Z)%bool eqn:Hb; [|discriminate].
    destruct (nd_index sh idx) as [r|] eqn:Hr; [|discriminate].
    intros Hi. injection Hi as <-.
    apply andb_true_iff in Hb. destruct Hb as [H0 Hn].
    apply Z.leb_le in H0. apply Z.ltb_lt in Hn.
    specialize (IH idx r Hr).
    assert (Z.to_nat z' < n)%nat by lia.
    change (size_of (n :: sh)) with (n * size_of sh)%nat. nia.
Qed.

Lemma bind_quiet_ok {S X Y} (c : M S X) (k : X -> M S Y) self x self' :
  c self = (Ok x, self', []) -> bind c k self = k x self'.
Proof.
  intros Hc. unfold bind. rewrite Hc. destruct (k x self') as [[r s2] l2]. reflexivity.
Qed.

Lemma array_get_ok {S} (arr : S -> ndarray) (idx : list Z) (self : S) sh i v :
  nd_shape (arr self) = sh -> nd_index sh idx = Some i ->
  nd_data (arr self) !! i = Some v ->
  array_get arr idx self = (Ok v, self, []).
Proof.
  intros Hsh Hi Hv. unfold array_get, nd_get. rewrite Hsh, Hi, Hv. reflexivity.
Qed.

Lemma array_set_ok {S} (arr : S -> ndarray) upd (idx : list Z) (v : Q) (self : S) sh i :
  nd_shape (arr self) = sh -> nd_index sh idx = Some i ->
  array_set arr upd idx v self
  = (Ok tt, upd (mk_ndarray (nd_shape (arr self)) (<[i := v]> (nd_data (arr self)))) self, []).
Proof.
  intros Hsh Hi. unfold array_set, nd_set. rewrite Hsh, Hi. reflexivity.
Qed.

Section StatisticsBlock.
Context {A L : Type}.
Variable np_sqrt : Q -> Q.

Lemma WeightedQLearning_statistics_run (sh : list nat) (sa_idx : list Z)
    (target alpha : Q) (self : TD A L WeightedQLearning_attrs) :
  WeightedQLearning_wf sh (ext self) ->
  WeightedQLearning_statistics np_sqrt sa_idx target alpha self =
  match nd_index sh sa_idx with
  | Some i => (Ok tt, set_ext (statistics_at np_sqrt i target alpha (ext self)) self, [])
  | None => (Raise IndexError, self, [])
  end.
Proof.
  destruct self as [m l g [smp pr [sn dn] [ss ds] [sq dq] [sq2 dq2] [sw dw]]].
  unfold WeightedQLearning_wf, nd_wf. simpl.
  intros ((-> & Ln) & (-> & Ls) & (-> & Lq) & (-> & Lq2) & (-> & Lw)).
  unfold WeightedQLearning_statistics.
  destruct (nd_index sh sa_idx) as [i|] eqn:Hi.
  2:{ unfold bind, array_get, nd_get. simpl. rewrite Hi. reflexivity. }
  pose proof (nd_index_lt _ _ _ Hi) as Hlt.
  destruct (lookup_lt_is_Some_2 dn i) as [n Hn]; [lia|].
  destruct (lookup_lt_is_Some_2 dq i) as [qm Hq]; [lia|].
  destruct (lookup_lt_is_Some_2 dq2 i) as [q2 Hq2]; [lia|].
  destruct (lookup_lt_is_Some_2 dw i) as [wv Hw]; [lia|].
  assert (Hin : forall (d : list Q) (v : Q),
             length d = size_of sh -> <[i := v]> d !! i = Some v).
  { intros d v Hd. apply list_lookup_insert_eq. lia. }
  unfold statistics_at. simpl. rewrite Hn, Hq, Hq2, Hw. simpl.
  erewrite bind_quiet_ok by (eapply array_get_ok; [reflexivity | exact Hi | exact Hn]).
  erewrite bind_quiet_ok by (eapply array_set_ok; [reflexivity | exact Hi]).
  erewrite bind_quiet_ok by (eapply array_get_ok; [reflexivity | exact Hi | exact Hq]).
  erewrite bind_quiet_ok
    by (eapply array_get_ok; [reflexivity | exact Hi | apply Hin; exact Ln]).
  erewrite bind_quiet_ok by (eapply array_set_ok; [reflexivity | exact Hi]).
  erewrite bind_quiet_ok by (eapply array_get_ok; [reflexivity | exact Hi | exact Hq2]).
  erewrite bind_quiet_ok
    by (eapply array_get_ok; [reflexivity | exact Hi | apply Hin; exact Ln]).
  erewrite bind_quiet_ok by (eapply array_set_ok; [reflexivity | exact Hi]).
  erewrite bind_quiet_ok by (eapply array_get_ok; [reflexivity | exact Hi | exact Hw]).
  erewrite bind_quiet_ok by (eapply array_set_ok; [reflexivity | exact Hi]).
  erewrite bind_quiet_ok
    by (eapply array_get_ok; [reflexivity | exact Hi | apply Hin; exact Ln]).
  destruct (Qltb 1 (n + 1)); [|reflexivity].
  erewrite bind_quiet_ok
    by (eapply array_get_ok; [reflexivity | exact Hi | apply Hin; exact Lq2]).
  erewrite bind_quiet_ok
    by (eapply array_get_ok; [reflexivity | exact Hi | apply Hin; exact Lq]).
  erewrite bind_quiet_ok
    by (eapply array_get_ok; [reflexivity | exact Hi | apply Hin; exact Lw]).
  erewrite bind_quiet_ok by (eapply array_set_ok; [reflexivity | exact Hi]).
  reflexivity.
Qed.

End StatisticsBlock.

(** ** WeightedQLearning: invariants of the statistics *)

Lemma nd_floor_floored (bound : Q) (l : list Q) :
  Forall (fun x => bound <= x) (map (fun x => if Qltb x bound then bound else x) l).
Proof.
  apply Forall_forall. intros y Hy. apply list_elem_of_In in Hy.
  apply in_map_iff in Hy. destruct Hy as (x & <- & _).
  destruct (Qltb x bound) eqn:E.
  - apply Qle_refl.
  - apply Qltb_false. exact E.
Qed.

Lemma sigma_init_value : 1 * sigma_init = sigma_init.
Proof. reflexivity. Qed.

Lemma sigma_init_above_floor : Qltb sigma_init sigma_floor = false.
Proof. reflexivity. Qed.

Lemma statistics_at_inv (np_sqrt : Q -> Q) (sh : list nat) (i : nat)
    (target alpha : Q) (w : WeightedQLearning_attrs) :
  (i < size_of sh)%nat ->
  WeightedQLearning_inv sh w ->
  WeightedQLearning_inv sh (statistics_at np_sqrt i target alpha w).
Proof.
  unfold WeightedQLearning_inv.
  intros Hi (Hwf & Hfl & Hun & Hnn).
  destruct w as [smp pr [sn dn] [ss ds] [sq dq] [sq2 dq2] [sw dw]].
  unfold WeightedQLearning_wf, nd_wf, sigma_floored, unvisited_sigma, counts_nonneg in *.
  simpl in *.
  destruct Hwf as ((-> & Ln) & (-> & Ls) & (-> & Lq) & (-> & Lq2) & (-> & Lw)).
  destruct (lookup_lt_is_Some_2 dn i) as [n Hn]; [lia|].
  assert (Hn0 : 0 <= n).
  { rewrite Forall_forall in Hnn. apply Hnn. eapply list_elem_of_lookup_2. exact Hn. }
  assert (Hcount : Forall (fun n => 0 <= n) (<[i := n + 1]> dn)).
  { apply Forall_insert; [exact Hnn|]. lra. }
  assert (Hkeep : forall k m, <[i := n + 1]> dn !! k = Some m -> m == 0 ->
                              i <> k /\ ds !! k = Some sigma_init).
  { intros k m Hk Hm. destruct (decide (i = k)) as [<- | Hne].
    - rewrite list_lookup_insert_eq in Hk by lia. injection Hk as <-.
      exfalso. assert (Hpos : 0 < n + 1) by lra. rewrite Hm in Hpos.
      apply (Qlt_irrefl 0). exact Hpos.
    - rewrite list_lookup_insert_ne in Hk by exact Hne.
      split; [exact Hne | exact (Hun k m Hk Hm)]. }
  unfold statistics_at. simpl. rewrite Hn. simpl.
  destruct (Qltb 1 (n + 1)); simpl;
    (split; [|split; [|split]]);
    rewrite ?length_map, ?length_insert; try assumption; try (repeat split; assumption).
  - apply nd_floor_floored.
  - intros k m Hk Hm. destruct (Hkeep k m Hk Hm) as [Hne Hs].
    rewrite list_lookup_fmap, list_lookup_insert_ne by exact Hne.
    rewrite Hs. reflexivity.
  - intros k m Hk Hm. apply (Hkeep k m Hk Hm).
Qed.

Section WeightedQLearningInvariant.
Context {A L : Type} `{Approximator A} `{LearningRate L}.
Variable np_sqrt : Q -> Q.

Lemma WeightedQLearning_init_inv (approximator0 : A) (gamma : Q) (lr : L)
    (sampling : bool) (precision : Q) :
  WeightedQLearning_inv (shape approximator0)
    (ext (WeightedQLearning_init approximator0 gamma lr sampling precision)).
Proof.
  unfold WeightedQLearning_inv, WeightedQLearning_wf, nd_wf, sigma_floored,
         unvisited_sigma, counts_nonneg.
  simpl. rewrite !length_map, !length_replicate.
  repeat split.
  - apply Forall_forall. intros x Hx. apply list_elem_of_In in Hx.
    apply in_map_iff in Hx. destruct Hx as (y & <- & Hy).
    apply list_elem_of_In, elem_of_replicate in Hy. destruct Hy as [-> _].
    rewrite sigma_init_value. discriminate.
  - intros i n Hn _. apply lookup_replicate in Hn. destruct Hn as [_ Hi].
    rewrite list_lookup_fmap, lookup_replicate_2 by exact Hi. reflexivity.
  - apply Forall_forall. intros x Hx. apply elem_of_replicate in Hx.
    destruct Hx as [-> _]. apply Qle_refl.
Qed.

Lemma WeightedQLearning_fit_bad_call (normal : nat -> nat -> Q -> Q -> Q)
    (dataset : list sample) (n_iterations : Z) (self : TD A L WeightedQLearning_attrs) :
  n_iterations <> 1%Z \/ length dataset <> 1%nat ->
  WeightedQLearning_fit np_sqrt normal dataset n_iterations self
  = (Raise AssertionError, self, []).
Proof.
  intros Hbad. apply bad_call_guard in Hbad.
  unfold WeightedQLearning_fit. rewrite Hbad. reflexivity.
Qed.

(** What a call of [fit] does to the statistics of a well-formed object:
    nothing, or the statistics block at the cell of the sample's key. *)
Lemma WeightedQLearning_fit_ext (sh : list nat) (normal : nat -> nat -> Q -> Q -> Q)
    (dataset : list sample) (n_iterations : Z) (self : TD A L WeightedQLearning_attrs) :
  WeightedQLearning_wf sh (ext self) ->
  let self' := final (WeightedQLearning_fit np_sqrt normal dataset n_iterations self) in
  ext self' = ext self \/
  exists smp i target alpha,
    dataset = [smp] /\
    nd_index sh (s_state smp ++ s_action smp) = Some i /\
    ext self' = statistics_at np_sqrt i target alpha (ext self).
Proof.
  intros Hwf self'. subst self'.
  destruct (single_sample dataset n_iterations) as [Hbad | [-> [smp ->]]].
  { rewrite WeightedQLearning_fit_bad_call by exact Hbad. left. reflexivity. }
  rewrite_run (WeightedQLearning_fit_run np_sqrt normal smp self).
  assert (Hstat : forall target alpha (self1 : TD A L WeightedQLearning_attrs),
             ext self1 = ext self ->
             let st := WeightedQLearning_statistics np_sqrt
                         (s_state smp ++ s_action smp) target alpha self1 in
             ext (final st) = ext self \/
             exists smp' i target' alpha',
               [smp] = [smp'] /\
               nd_index sh (s_state smp' ++ s_action smp') = Some i /\
               ext (final st) = statistics_at np_sqrt i target' alpha' (ext self)).
  { intros target alpha self1 Hext st. subst st.
    rewrite (WeightedQLearning_statistics_run np_sqrt sh) by (rewrite Hext; exact Hwf).
    destruct (nd_index sh (s_state smp ++ s_action smp)) as [i|] eqn:Hi.
    - right. exists smp, i, target, alpha. rewrite <- Hext. repeat split. exact Hi.
    - left. exact Hext. }
  destruct (s_absorbing smp).
  - apply Hstat. reflexivity.
  - destruct (outcome (WeightedQLearning_next_q normal (s_next_state smp) self)).
    + apply Hstat. reflexivity.
    + left. reflexivity.
Qed.

Lemma WeightedQLearning_fit_inv (sh : list nat) (normal : nat -> nat -> Q -> Q -> Q)
    (dataset : list sample) (n_iterations : Z) (self : TD A L WeightedQLearning_attrs) :
  WeightedQLearning_inv sh (ext self) ->
  WeightedQLearning_inv sh
    (ext (final (WeightedQLearning_fit np_sqrt normal dataset n_iterations self))).
Proof.
  intros Hinv.
  destruct (WeightedQLearning_fit_ext sh normal dataset n_iterations self)
    as [-> | (smp & i & target & alpha & _ & Hi & ->)].
  - apply Hinv.
  - exact Hinv.
  - apply statistics_at_inv; [|exact Hinv]. eapply nd_index_lt. exact Hi.
Qed.

Lemma WeightedQLearning_run_inv (sh : list nat)
    (inputs : list ((nat -> nat -> Q -> Q -> Q) * list sample * Z)) :
  forall self : TD A L WeightedQLearning_attrs,
    WeightedQLearning_inv sh (ext self) ->
    WeightedQLearning_inv sh (ext (WeightedQLearning_run np_sqrt inputs self)).
Proof.
  induction inputs as [|[[normal dataset] n_iterations] rest IH]; intros self Hinv.
  - exact Hinv.
  - simpl. apply IH. apply WeightedQLearning_fit_inv. exact Hinv.
Qed.

(** In exact arithmetic, where a square root is a number, the floor
    works: in every object that was constructed by [WeightedQLearning] and
    then went through any sequence of calls of [fit], whatever their
    arguments, their Gaussian draws and their outcome, every entry of the
    sigma array is at least [1e-10]. *)
Theorem WeightedQLearning_sigma_floor (approximator0 : A) (gamma : Q) (lr : L)
    (sampling : bool) (precision : Q)
    (inputs : list ((nat -> nat -> Q -> Q -> Q) * list sample * Z)) :
  Forall (fun sigma => 1e-10 <= sigma)
    (nd_data (_sigma (ext (WeightedQLearning_run np_sqrt inputs
       (WeightedQLearning_init approximator0 gamma lr sampling precision))))).
Proof.
  pose proof (WeightedQLearning_run_inv (shape approximator0) inputs _
    (WeightedQLearning_init_inv approximator0 gamma lr sampling precision))
    as (_ & Hfl & _).
  exact Hfl.
Qed.

(** C10.  Take an object that was constructed by [WeightedQLearning] and
    went through any sequence of calls of [fit].  If one more call of
    [fit] takes the visitation count of a key from 0 to 1, then the call
    has left the whole sigma array as it was, and the sigma of that key is
    the value [1e10] it was created with. *)
Theorem WeightedQLearning_first_visit_keeps_sigma (approximator0 : A) (gamma : Q)
    (lr : L) (sampling : bool) (precision : Q)
    (inputs : list ((nat -> nat -> Q -> Q -> Q) * list sample * Z))
    (normal : nat -> nat -> Q -> Q -> Q) (dataset : list sample) (n_iterations : Z)
    (key : list Z) (n_before n_after : Q) :
  let self := WeightedQLearning_run np_sqrt inputs
                (WeightedQLearning_init approximator0 gamma lr sampling precision) in
  let self' := final (WeightedQLearning_fit np_sqrt normal dataset n_iterations self) in
  nd_get (_n_updates (ext self)) key = Some n_before ->
  n_before == 0 ->
  nd_get (_n_updates (ext self')) key = Some n_after ->
  n_after == 1 ->
  _sigma (ext self') = _sigma (ext self) /\
  nd_get (_sigma (ext self')) key = Some 1e10.
Proof.
  intros self self'. subst self'. intros Hb Hb0 Ha Ha1.
  pose proof (WeightedQLearning_run_inv (shape approximator0) inputs _
    (WeightedQLearning_init_inv approximator0 gamma lr sampling precision))
    as Hinv.
  fold self in Hinv.
  assert (Hne : ~ n_before == n_after).
  { rewrite Hb0, Ha1. discriminate. }
  destruct (WeightedQLearning_fit_ext (shape approximator0) normal dataset
              n_iterations self (proj1 Hinv))
    as [Hsame | (smp & i & target & alpha & _ & Hi & Hstat)].
  { rewrite Hsame in Ha. rewrite Hb in Ha. injection Ha as <-.
    exfalso. apply Hne. reflexivity. }
  destruct Hinv as (Hwf & _ & Hun & _).
  revert Hb Ha. rewrite Hstat. clear Hstat.
  destruct (ext self) as [smpl pr [sn dn] [ss ds] [sq dq] [sq2 dq2] [sw dw]].
  unfold WeightedQLearning_wf, nd_wf, unvisited_sigma in *. simpl in *.
  destruct Hwf as ((-> & Ln) & (-> & Ls) & _).
  pose proof (nd_index_lt _ _ _ Hi) as Hlt.
  unfold nd_get, statistics_at. simpl.
  destruct (nd_index (shape approximator0) key) as [j|] eqn:Hj; [|discriminate].
  intros Hb Ha.
  destruct (decide (i = j)) as [<- | Hij].
  2:{ rewrite list_lookup_insert_ne in Ha by exact Hij.
      rewrite Hb in Ha. injection Ha as <-. exfalso. apply Hne. reflexivity. }
  rewrite Hb in *. simpl in *.
  assert (Hbranch : Qltb 1 (n_before + 1) = false).
  { apply Qltb_false. rewrite Hb0. discriminate. }
  rewrite Hbranch. split; [reflexivity|].
  simpl. rewrite Hj. apply (Hun i n_before Hb Hb0).
Qed.

End WeightedQLearningInvariant.

(** ** WeightedQLearning: the weighted estimator (C5) *)

Lemma argmax_lt (l : list Q) (j : nat) : argmax l = Some j -> (j < length l)%nat.
Proof.
  intros Hj. destruct l as [|x l]; [discriminate|].
  destruct (argmax_spec (x :: l)) as (j' & v & Hj' & Hv & _); [discriminate|].
  rewrite Hj in Hj'. injection Hj' as <-. eapply lookup_lt_Some. exact Hv.
Qed.

Lemma mapM_ok {S X Y} (f : X -> M S Y) (g : X -> Y) (self : S) (l : list X) :
  (forall x, In x l -> f x self = (Ok (g x), self, [])) ->
  mapM f l self = (Ok (map g l), self, []).
Proof.
  induction l as [|x l IH]; intros Hf; simpl.
  - reflexivity.
  - rewrite (bind_quiet_ok _ _ _ _ _ (Hf x (or_introl eq_refl))).
    rewrite (bind_quiet_ok _ _ _ _ _ (IH (fun y Hy => Hf y (or_intror Hy)))).
    reflexivity.
Qed.

(** The tallies add up to the number of draws. *)
Lemma count_occ_sum (size : nat) (max_idx : list nat) :
  Forall (fun i => (i < size)%nat) max_idx ->
  fold_right Nat.add 0%nat (map (count_occ Nat.eq_dec max_idx) (seq 0 size))
  = length max_idx.
Proof.
  intros Hall. induction Hall as [|x l Hx Hl IH]; simpl.
  - induction (seq 0 size) as [|a s IHs]; simpl; [reflexivity | exact IHs].
  - rewrite <- IH. clear IH Hl.
    assert (Hone : forall (start len : nat),
               fold_right Nat.add 0%nat
                 (map (fun a => if Nat.eq_dec x a then S (count_occ Nat.eq_dec l a)
                                else count_occ Nat.eq_dec l a) (seq start len))
               = ((if (start <=? x)%nat && (x <? start + len)%nat then 1 else 0)
                  + fold_right Nat.add 0%nat
                      (map (count_occ Nat.eq_dec l) (seq start len)))%nat).
    { intros start len. revert start.
      induction len as [|len IHlen]; intros start; simpl.
      - replace (x <? start + 0)%nat with (x <? start)%nat by (f_equal; lia).
        destruct (start <=? x)%nat eqn:E1, (x <? start)%nat eqn:E2; simpl; try reflexivity.
        apply Nat.leb_le in E1. apply Nat.ltb_lt in E2. lia.
      - rewrite IHlen.
        destruct (Nat.eq_dec x start) as [-> | Hne].
        + replace (S start <=? start)%nat with false by (symmetry; apply Nat.leb_gt; lia).
          replace (start <=? start)%nat with true by (symmetry; apply Nat.leb_le; lia).
          replace (start <? start + S len)%nat with true
            by (symmetry; apply Nat.ltb_lt; lia).
          simpl. lia.
        + destruct (start <=? x)%nat eqn:E1, (S start <=? x)%nat eqn:E2;
            destruct (x <? start + S len)%nat eqn:E3, (x <? S start + len)%nat eqn:E4;
            simpl; try lia;
            repeat match goal with
                   | H : (_ <=? _)%nat = true |- _ => apply Nat.leb_le in H
                   | H : (_ <=? _)%nat = false |- _ => apply Nat.leb_gt in H
                   | H : (_ <? _)%nat = true |- _ => apply Nat.ltb_lt in H
                   | H : (_ <? _)%nat = false |- _ => apply Nat.ltb_ge in H
                   end; lia. }
    rewrite (Hone 0%nat size). simpl.
    replace (x <? size)%nat with true by (symmetry; apply Nat.ltb_lt; exact Hx).
    reflexivity.
Qed.

Lemma Qsum_inject (l : list nat) :
  Qsum (map (fun c => inject_Z (Z.of_nat c)) l)
  == inject_Z (Z.of_nat (fold_right Nat.add 0%nat l)).
Proof.
  induction l as [|c l IH]; simpl.
  - reflexivity.
  - rewrite IH, Nat2Z.inj_add, inject_Z_plus. reflexivity.
Qed.

Lemma Qsum_tally (size : nat) (max_idx : list nat) :
  Forall (fun i => (i < size)%nat) max_idx ->
  Qsum (tally size max_idx) == inject_Z (Z.of_nat (length max_idx)).
Proof.
  intros Hall. unfold tally.
  rewrite <- (count_occ_sum size max_idx Hall), <- Qsum_inject, map_map.
  reflexivity.
Qed.

Lemma Qsum_div (l : list Q) (p : Q) :
  Qsum (map (fun c => c / p) l) == Qsum l / p.
Proof.
  induction l as [|c l IH]; simpl.
  - unfold Qdiv. ring.
  - rewrite IH. unfold Qdiv. ring.
Qed.

Lemma tally_nonneg (size : nat) (max_idx : list nat) :
  Forall (fun c => 0 <= c) (tally size max_idx).
Proof.
  unfold tally. apply Forall_forall. intros c Hc.
  apply list_elem_of_In, in_map_iff in Hc. destruct Hc as (a & <- & _).
  change 0 with (inject_Z 0). rewrite <- Zle_Qle. lia.
Qed.

Lemma weights_nonneg (precision : Q) (size : nat) (max_idx : list nat) :
  0 < precision ->
  Forall (fun x => 0 <= x) (WeightedQLearning_weights precision size max_idx).
Proof.
  intros Hp. unfold WeightedQLearning_weights.
  apply Forall_forall. intros x Hx.
  apply list_elem_of_In, in_map_iff in Hx. destruct Hx as (c & <- & Hc).
  pose proof (tally_nonneg size max_idx) as Hall. rewrite Forall_forall in Hall.
  apply list_elem_of_In, Hall in Hc.
  apply Qle_shift_div_l; [exact Hp|]. rewrite Qmult_0_l. exact Hc.
Qed.

(** A weighted sum lies between the least and the greatest term times the
    sum of the weights. *)
Lemma np_dot_bounds (lo hi : Q) (w : list Q) : forall means : list Q,
  length w = length means ->
  Forall (fun x => 0 <= x) w ->
  Forall (fun m => lo <= m /\ m <= hi) means ->
  lo * Qsum w <= np_dot w means /\ np_dot w means <= hi * Qsum w.
Proof.
  induction w as [|x w IH]; intros [|m means] Hlen Hw Hm; simpl in *; try discriminate.
  - split; lra.
  - inversion Hw as [|? ? Hx Hw']; subst. inversion Hm as [|? ? [Hlo Hhi] Hm']; subst.
    destruct (IH means) as [IHlo IHhi]; [lia | assumption | assumption |].
    split; nra.
Qed.

Lemma Qlist_extrema (means : list Q) :
  Forall (fun m => Qlist_min means <= m /\ m <= Qlist_max means) means.
Proof.
  destruct means as [|x l]; [constructor|]. simpl.
  assert (Hfold : forall y, Forall (fun m => fold_right Qmin y l <= m /\
                                              m <= fold_right Qmax y l) l /\
                            fold_right Qmin y l <= y /\ y <= fold_right Qmax y l).
  { intros y. induction l as [|z l IH]; simpl.
    - split; [constructor | split; apply Qle_refl].
    - destruct IH as (Hall & Hlo & Hhi). split; [|split].
      + constructor.
        * split; [apply Q.le_min_l | apply Q.le_max_l].
        * eapply Forall_impl; [exact Hall|]. intros m [H1 H2]. split.
          -- eapply Qle_trans; [apply Q.le_min_r | exact H1].
          -- eapply Qle_trans; [exact H2 | apply Q.le_max_r].
      + eapply Qle_trans; [apply Q.le_min_r | exact Hlo].
      + eapply Qle_trans; [exact Hhi | apply Q.le_max_r]. }
  destruct (Hfold x) as (Hall & Hlo & Hhi).
  constructor; [split; assumption | exact Hall].
Qed.

Lemma np_random_normal_rows (normal : nat -> nat -> Q -> Q -> Q)
    (means sigmas : list Q) (n : nat) :
  length sigmas = length means ->
  length (np_random_normal normal (np_repeat means n) (np_repeat sigmas n)) = n /\
  Forall (fun row => length row = length means)
         (np_random_normal normal (np_repeat means n) (np_repeat sigmas n)).
Proof.
  intros Hlen. unfold np_random_normal, np_repeat. split.
  - rewrite length_imap, length_zip_with, !length_replicate. lia.
  - apply Forall_forall. intros row Hrow.
    apply list_elem_of_lookup in Hrow. destruct Hrow as [i Hi].
    rewrite list_lookup_imap in Hi.
    destruct (zip (replicate n means) (replicate n sigmas) !! i) as [[ms ss]|] eqn:Hz;
      [|discriminate].
    simpl in Hi. injection Hi as <-.
    apply lookup_zip_with_Some in Hz.
    destruct Hz as (ms' & ss' & Heq & Hms & Hss). injection Heq as <- <-.
    apply lookup_replicate in Hms. apply lookup_replicate in Hss.
    destruct Hms as [-> _], Hss as [-> _].
    rewrite length_imap, length_zip_with. simpl. lia.
Qed.

Lemma np_repeat_count_whole (precision : Q) (z : Z) :
  precision == inject_Z z -> np_repeat_count precision = z.
Proof.
  unfold Qeq, np_repeat_count. simpl. intros Hp.
  rewrite Z.mul_1_r in Hp. rewrite Hp. apply Z.quot_mul. discriminate.
Qed.

Section WeightedEstimator.
Context {A L : Type} `{Approximator A} `{LearningRate L}.

(** [_next_q] returns whenever sampling is enabled, the number of draws is
    not negative, there is an action and sigma has a cell for every
    action: it tallies one argmax per draw. *)
Lemma WeightedQLearning_next_q_returns
    (normal : nat -> nat -> Q -> Q -> Q) (next_state : state)
    (self : TD A L WeightedQLearning_attrs) :
  _sampling (ext self) = true ->
  (0 <= np_repeat_count (_precision (ext self)))%Z ->
  discrete_actions (approximator self) <> [] ->
  (forall a : nat,
      (a < length (discrete_actions (approximator self)))%nat ->
      is_Some (nd_get (_sigma (ext self)) (next_state ++ [Z.of_nat a]))) ->
  let means := predict_all (approximator self) next_state in
  exists max_idx : list nat,
    let w := WeightedQLearning_weights (_precision (ext self)) (length means) max_idx in
    WeightedQLearning_next_q normal next_state self
    = (Ok (np_dot w means), self, [EvPredictAll MainModel next_state]) /\
    length max_idx = Z.to_nat (np_repeat_count (_precision (ext self))) /\
    Forall (fun i => (i < length means)%nat) max_idx.
Proof.
  intros Hsampling Hcount Hactions Hsigma means.
  assert (Hmeans : length means = length (discrete_actions (approximator self))).
  { unfold means, predict_all. apply length_map. }
  (* the sigmas of the actions *)
  set (sigma_of := fun a : nat =>
         default 0 (nd_get (_sigma (ext self)) (next_state ++ [Z.of_nat a]))).
  assert (Hsig : mapM (fun a => array_get self_sigma (next_state ++ [Z.of_nat a]))
                      (seq 0 (length means)) self
                 = (Ok (map sigma_of (seq 0 (length means))), self, [])).
  { apply mapM_ok. intros a Ha. apply in_seq in Ha.
    destruct (Hsigma a) as [v Hv]; [lia|].
    unfold array_get, self_sigma, sigma_of. rewrite Hv. reflexivity. }
  set (sigmas := map sigma_of (seq 0 (length means))) in Hsig.
  assert (Hsigmas : length sigmas = length means).
  { unfold sigmas. rewrite length_map, length_seq. reflexivity. }
  (* the draws and their argmax *)
  set (n_draws := Z.to_nat (np_repeat_count (_precision (ext self)))).
  set (samples := np_random_normal normal
                    (np_repeat means n_draws) (np_repeat sigmas n_draws)).
  destruct (np_random_normal_rows normal means sigmas n_draws Hsigmas)
    as [Hrows Hcols].
  fold samples in Hrows, Hcols.
  set (pick := fun row : list Q => default 0%nat (argmax row)).
  assert (Hpick : forall row, In row samples ->
                    argmax row = Some (pick row) /\ (pick row < length means)%nat).
  { intros row Hrow. rewrite Forall_forall in Hcols.
    apply list_elem_of_In in Hrow. specialize (Hcols row Hrow).
    destruct (argmax_spec row) as (j & v & Hj & _ & _).
    { intros ->. simpl in Hcols. rewrite Hmeans in Hcols.
      destruct (discrete_actions (approximator self)); [congruence | discriminate]. }
    unfold pick. rewrite Hj. split; [reflexivity|]. simpl.
    rewrite <- Hcols. apply argmax_lt. exact Hj. }
  assert (Hmax : mapM (fun row => match argmax row with
                                  | Some i => ret i
                                  | None => raise ValueError
                                  end) samples self
                 = (Ok (map pick samples), self, [])).
  { apply mapM_ok. intros row Hrow. destruct (Hpick row Hrow) as [-> _]. reflexivity. }
  exists (map pick samples). intros w. split; [|split].
  - unfold WeightedQLearning_next_q.
    match goal with
    | |- bind _ ?K _ = _ =>
        assert (HK : K means self = (Ok (np_dot w means), self, []))
    end.
    { cbv beta. rewrite (bind_quiet_ok _ _ _ _ _ Hsig).
      rewrite (bind_quiet_ok (gets _) _ self _ self eq_refl).
      rewrite (bind_quiet_ok (gets _) _ self _ self eq_refl).
      rewrite Hsampling.
      replace (np_repeat_count (_precision (ext self)) <? 0)%Z with false
        by (symmetry; apply Z.ltb_ge; exact Hcount).
      rewrite (bind_quiet_ok (ret _) _ self _ self eq_refl).
      fold n_draws. fold samples.
      rewrite (bind_quiet_ok _ _ _ _ _ Hmax). reflexivity. }
    rewrite (bind_ok _ _ self means self [EvPredictAll MainModel next_state])
      by reflexivity.
    rewrite HK. reflexivity.
  - rewrite length_map. exact Hrows.
  - apply Forall_forall. intros i Hi. apply list_elem_of_In, in_map_iff in Hi.
    destruct Hi as (row & <- & Hrow). apply Hpick. exact Hrow.
Qed.

(** C5.  Let sampling be enabled, the precision be a positive whole
    number, the approximator have at least one discrete action and sigma
    have a cell for every action in [next_state].  Then, whatever the
    Gaussian draws are, [_next_q] returns the weighted sum of the
    per-action means with the weights [count / precision], one argmax per
    draw being tallied; these weights are non-negative and sum to 1, and
    the value returned lies between the least and the greatest mean. *)
Theorem WeightedQLearning_next_q_weighted_mean
    (normal : nat -> nat -> Q -> Q -> Q) (next_state : state)
    (self : TD A L WeightedQLearning_attrs) (p : positive) :
  _sampling (ext self) = true ->
  _precision (ext self) == inject_Z (Z.pos p) ->
  discrete_actions (approximator self) <> [] ->
  (forall a : nat,
      (a < length (discrete_actions (approximator self)))%nat ->
      is_Some (nd_get (_sigma (ext self)) (next_state ++ [Z.of_nat a]))) ->
  let means := predict_all (approximator self) next_state in
  exists max_idx : list nat,
    let w := WeightedQLearning_weights (_precision (ext self)) (length means) max_idx in
    WeightedQLearning_next_q normal next_state self
    = (Ok (np_dot w means), self, [EvPredictAll MainModel next_state]) /\
    length max_idx = Pos.to_nat p /\
    Forall (fun i => (i < length means)%nat) max_idx /\
    length w = length means /\
    Forall (fun x => 0 <= x) w /\
    Qsum w == 1 /\
    Qlist_min means <= np_dot w means /\
    np_dot w means <= Qlist_max means.
Proof.
  intros Hsampling Hprec Hactions Hsigma means.
  pose proof (np_repeat_count_whole _ _ Hprec) as Hcount.
  assert (Hpos : 0 < _precision (ext self)).
  { rewrite Hprec. change 0 with (inject_Z 0). rewrite <- Zlt_Qlt. lia. }
  destruct (WeightedQLearning_next_q_returns normal next_state self Hsampling
              ltac:(rewrite Hcount; lia) Hactions Hsigma)
    as (max_idx & Hrun & Hlen & Hidx).
  fold means in Hrun, Hidx. rewrite Hcount in Hlen.
  change (Z.to_nat (Z.pos p)) with (Pos.to_nat p) in Hlen.
  exists max_idx. intros w.
  assert (Hlenw : length w = length means).
  { unfold w, WeightedQLearning_weights, tally. rewrite !length_map, length_seq.
    reflexivity. }
  assert (Hw : Forall (fun x => 0 <= x) w) by (apply weights_nonneg; exact Hpos).
  assert (Hsum : Qsum w == 1).
  { unfold w, WeightedQLearning_weights.
    rewrite Qsum_div, (Qsum_tally _ _ Hidx), Hlen.
    rewrite positive_nat_Z, Hprec.
    apply Qmult_inv_r. discriminate. }
  split; [|split; [|split; [|split; [|split; [|split; [|split]]]]]];
    try assumption.
  - destruct (np_dot_bounds (Qlist_min means) (Qlist_max means) w means Hlenw Hw
                (Qlist_extrema means)) as [Hlo _].
    rewrite Hsum, Qmult_1_r in Hlo. exact Hlo.
  - destruct (np_dot_bounds (Qlist_min means) (Qlist_max means) w means Hlenw Hw
                (Qlist_extrema means)) as [_ Hhi].
    rewrite Hsum, Qmult_1_r in Hhi. exact Hhi.
Qed.

End WeightedEstimator.

(** ** C9: reward 0 and gamma 0 *)




Lemma fit_writes_one {S} (o : result unit) (self : S) (l : list event) (q v : Q) :
  written_values l = [q] -> q == v -> fit_writes (o, self, l) v.
Proof.
  intros Hl Hq. split; simpl; rewrite Hl.
  - constructor; [exact Hq | constructor].
  - intros _. exists q. reflexivity.
Qed.


Section ZeroTarget.
Context {A L : Type} `{Approximator A} `{LearningRate L}.


(** The rules that read the absorbing flag: on an absorbing sample the
    bootstrap is the constant 0, no next-state value is asked of any
    collaborator, and the value written comes from the target
    [reward]. *)
Lemma absorbing_target_is_reward (smp : sample) :
  s_absorbing smp = true ->
  let s := s_state smp in
  let a := s_action smp in
  let expected (q_current alpha : Q) := q_current + alpha * (s_reward smp - q_current) in
  (forall self : TD A L unit,
      fit_writes (QLearning_fit [smp] 1 self)
        (expected (predict (approximator self) s a)
                  (fst (learning_rate_call (learning_rate self) s a)))) /\
  (forall uniform (self : TD (list A) (list L) unit) model lr,
      length (approximator self) = 2%nat ->
      length (learning_rate self) = 2%nat ->
      approximator self !! chosen uniform = Some model ->
      learning_rate self !! chosen uniform = Some lr ->
      fit_writes (DoubleQLearning_fit uniform [smp] 1 self)
        (expected (predict model s a) (fst (learning_rate_call lr s a)))) /\
  (forall np_sqrt normal (self : TD A L WeightedQLearning_attrs),
      fit_writes (WeightedQLearning_fit np_sqrt normal [smp] 1 self)
        (expected (predict (approximator self) s a)
                  (fst (learning_rate_call (learning_rate self) s a)))) /\
  (forall draw_action (self : TD A L (option action)),
      fit_writes (SARSA_fit draw_action [smp] 1 self)
        (expected (predict (approximator self) s a)
                  (fst (learning_rate_call (learning_rate self) s a)))).
Proof.
  intros Habs s a expected. subst s a expected.
  assert (Hstep : forall q_current alpha gamma,
             q_current + alpha * (s_reward smp + gamma * 0 - q_current)
             == q_current + alpha * (s_reward smp - q_current))
    by (intros; ring).
  split; [|split; [|split]].
  - intros self. rewrite_run (QLearning_fit_run smp self). rewrite Habs.
    eapply fit_writes_one; [reflexivity | apply Hstep].
  - intros uniform self model lr Hla Hll Hm Hl.
    destruct (two_sides uniform self Hla Hll) as (model' & other & lr' & Hm' & Ho & Hl').
    rewrite Hm in Hm'. injection Hm' as <-. rewrite Hl in Hl'. injection Hl' as <-.
    rewrite_run (DoubleQLearning_fit_run uniform smp self model other lr Hla Hll Hm Ho Hl).
    rewrite Habs. eapply fit_writes_one; [reflexivity | apply Hstep].
  - intros np_sqrt normal self.
    rewrite_run (WeightedQLearning_fit_run np_sqrt normal smp self). rewrite Habs.
    eapply fit_writes_one; [reflexivity | apply Hstep].
  - intros draw_action self. rewrite_run (SARSA_fit_run draw_action smp self). rewrite Habs.
    eapply fit_writes_one; [reflexivity | apply Hstep].
Qed.

End ZeroTarget.

(** * Runs on concrete objects *)

(** A two-sample dataset and a second iteration are both rejected. *)
Lemma fit_rejects_bad_call_witness :
  QLearning_fit [ex_sample; ex_sample] 1 (QLearning_init (table_of 0 0) 0.9 ex_schedule)
  = (Raise AssertionError, QLearning_init (table_of 0 0) 0.9 ex_schedule, []) /\
  SpeedyQLearning_fit [ex_sample] 2 (SpeedyQLearning_init (table_of 0 0) 0.9 ex_schedule)
  = (Raise AssertionError, SpeedyQLearning_init (table_of 0 0) 0.9 ex_schedule, []).
Proof.
  split.
  - apply (fit_rejects_bad_call (A := Tabular) (L := Schedule)
             [ex_sample; ex_sample] 1).
    right. simpl. lia.
  - apply (fit_rejects_bad_call (A := Tabular) (L := Schedule) [ex_sample] 2).
    left. lia.
Defined.

(** One model is refused, two are accepted. *)
Lemma DoubleQLearning_init_two_models_witness :
  DoubleQLearning_init [table_of 0 1] 0.5 ex_schedule = Raise AssertionError /\
  DoubleQLearning_init [table_of 0 1; table_of 2 3] 0.5 ex_schedule = Ok ex_double.
Proof.
  split.
  - apply (DoubleQLearning_init_two_models [table_of 0 1] 0.5 ex_schedule).
    simpl. lia.
  - apply (DoubleQLearning_init_two_models [table_of 0 1; table_of 2 3] 0.5 ex_schedule).
    reflexivity.
Defined.

(** The coin 1/4 selects side 0; side 1 is as before. *)
Lemma DoubleQLearning_fit_one_side_witness :
  approximator (final (DoubleQLearning_fit 0.25 [ex_sample] 1 ex_double)) !! 1%nat
  = Some (table_of 2 3) /\
  learning_rate (final (DoubleQLearning_fit 0.25 [ex_sample] 1 ex_double)) !! 1%nat
  = Some ex_schedule.
Proof.
  apply (DoubleQLearning_fit_one_side 0.25 [ex_sample] 1 ex_double);
    reflexivity.
Defined.

Lemma DoubleQLearning_bootstrap_witness :
  outcome (DoubleQLearning_fit 0.25 [ex_sample] 1 ex_double) = Ok tt.
Proof.
  assert (Hne : discrete_actions (table_of 0 1) <> []) by discriminate.
  destruct (DoubleQLearning_bootstrap 0.25 ex_sample ex_double
              (table_of 0 1) (table_of 2 3) ex_schedule
              eq_refl eq_refl eq_refl eq_refl eq_refl eq_refl Hne)
    as (a_n & _ & _ & _ & Hok & _).
  exact Hok.
Defined.


(** At the start of the third call the shadow is the table the second
    call started with, which is the table the first call left. *)
Lemma SpeedyQLearning_shadow_lags_witness :
  exists at_start after_first,
    ex_speedy_history !! 2%nat = Some at_start /\
    ex_speedy_history !! 1%nat = Some after_first /\
    ext at_start = approximator after_first /\
    approximator at_start <> approximator after_first.
Proof.
  destruct (ex_speedy_history !! 2%nat) as [at_start|] eqn:H2; [|discriminate].
  destruct (ex_speedy_history !! 1%nat) as [after_first|] eqn:H1; [|discriminate].
  exists at_start, after_first. split; [reflexivity|]. split; [reflexivity|].
  split.
  - apply (proj1 (SpeedyQLearning_shadow_lags (table_of 0 1) 0.5 ex_schedule
             [([ex_sample], 1%Z); ([ex_absorbing_sample], 1%Z); ([ex_sample], 1%Z)])
             2%nat after_first at_start).
    + lia.
    + exact H1.
    + exact H2.
  - vm_compute in H1, H2. injection H1 as <-. injection H2 as <-. discriminate.
Defined.

(** The first visit of the cell of state [0] and action [1]. *)
Lemma WeightedQLearning_first_visit_keeps_sigma_witness :
  nd_get (_sigma (ext (final (WeightedQLearning_fit sqrt_approx ex_normal
                                [ex_absorbing_sample] 1
                                (WeightedQLearning_run sqrt_approx
                                   [(ex_normal, [ex_sample], 1%Z)] ex_weighted)))))
         [0%Z; 1%Z]
  = Some 1e10.
Proof.
  apply (WeightedQLearning_first_visit_keeps_sigma (A := Tabular) (L := Schedule)
           sqrt_approx (table_of 0 1) 0.5 ex_schedule true 3
           [(ex_normal, [ex_sample], 1%Z)] ex_normal [ex_absorbing_sample] 1
           [0%Z; 1%Z] 0 1).
  - vm_compute. reflexivity.
  - reflexivity.
  - vm_compute. reflexivity.
  - reflexivity.
Defined.

(** Three draws over two actions with means 0 and 1. *)
Lemma WeightedQLearning_next_q_weighted_mean_witness :
  exists v,
    outcome (WeightedQLearning_next_q ex_normal [0%Z] ex_weighted) = Ok v /\
    0 <= v /\ v <= 1.
Proof.
  assert (Hcells : forall a : nat,
             (a < length (discrete_actions (approximator ex_weighted)))%nat ->
             is_Some (nd_get (_sigma (ext ex_weighted)) ([0%Z] ++ [Z.of_nat a]))).
  { intros [|[|a]] Ha.
    - eexists. reflexivity.
    - eexists. reflexivity.
    - simpl in Ha. lia. }
  assert (Hactions : discrete_actions (approximator ex_weighted) <> [])
    by discriminate.
  destruct (WeightedQLearning_next_q_weighted_mean ex_normal [0%Z] ex_weighted 3
              eq_refl (Qeq_refl 3) Hactions Hcells)
    as (max_idx & Hrun & _ & _ & _ & _ & _ & Hlo & Hhi).
  eexists. split; [rewrite Hrun; reflexivity|]. split.
  - exact Hlo.
  - exact Hhi.
Defined.

(** Counterexample to C5 for a precision that is not a whole number.
    With precision 5/2, [np.repeat] makes two draws and the tallies are
    divided by 5/2: the weights sum to 4/5 and the value returned, 4, is
    below the least mean, 5. *)
Lemma WeightedQLearning_fractional_precision :
  exists max_idx : list nat,
    WeightedQLearning_next_q ex_normal [0%Z] ex_weighted_fractional
    = (Ok (np_dot (WeightedQLearning_weights (5 # 2) 2 max_idx) [5; 5]),
       ex_weighted_fractional, [EvPredictAll MainModel [0%Z]]) /\
    predict_all (approximator ex_weighted_fractional) [0%Z] = [5; 5] /\
    ~ Qsum (WeightedQLearning_weights (5 # 2) 2 max_idx) == 1 /\
    np_dot (WeightedQLearning_weights (5 # 2) 2 max_idx) [5; 5]
    < Qlist_min (predict_all (approximator ex_weighted_fractional) [0%Z]).
Proof.
  exists [0%nat; 0%nat]. split; [vm_compute; reflexivity|].
  split; [reflexivity|]. split; [|reflexivity].
  intros Hsum. discriminate Hsum.
Qed.

(** The one-cell statistics, run on exact rationals, are what the
    embedding of [WeightedQLearning.fit] does at the key of the sample. *)
Lemma statistics_at_cell (np_sqrt : Q -> Q) (sh : list nat) (i : nat)
    (target alpha : Q) (w : WeightedQLearning_attrs) :
  WeightedQLearning_wf sh w ->
  (i < size_of sh)%nat ->
  cell_of i (statistics_at np_sqrt i target alpha w)
  = exact_statistics np_sqrt target alpha (cell_of i w).
Proof.
  intros (Hn & Hs & Hq & Hq2 & Hw) Hi.
  destruct Hn as [_ Hn], Hs as [_ Hs], Hq as [_ Hq], Hq2 as [_ Hq2], Hw as [_ Hw].
  unfold cell_of, exact_statistics, cell_statistics, statistics_at.
  cbn [_n_updates _Q _Q2 _weights_var _sigma nd_data c_n_updates c_Q c_Q2
       c_weights_var c_sigma].
  rewrite !list_lookup_insert_eq by lia.
  cbn [default].
  destruct (Qltb 1 _); [|reflexivity].
  unfold nd_floor. cbn [nd_data].
  change (@map Q Q) with (@fmap list _ Q Q).
  rewrite list_lookup_fmap, list_lookup_insert_eq by lia.
  reflexivity.
Qed.

(** C6.  On binary64 numbers the floor of sigma misses a case.  After two
    calls of [fit] on absorbing samples of one key with rewards [0.3] and
    [0.1 + 0.2] and step size 0.5, the running mean of the squares is
    below the square of the running mean, the variance is negative, its
    square root is nan, the comparison [sigma < 1e-10] is false for nan,
    and the sigma of the key is left nan: it is not at least [1e-10]. *)
Theorem sigma_is_nan_in_binary64 :
  PrimFloat.ltb (PrimFloat.sub (c_Q2 Binary64.after_two_visits)
                   (PrimFloat.mul (c_Q Binary64.after_two_visits)
                                  (c_Q Binary64.after_two_visits)))
                PrimFloat.zero = true /\
  PrimFloat.is_nan (c_sigma Binary64.after_two_visits) = true /\
  PrimFloat.leb Binary64.sigma_floor (c_sigma Binary64.after_two_visits) = false /\
  PrimFloat.ltb (c_sigma Binary64.after_two_visits) Binary64.sigma_floor = false.
Proof. vm_compute. repeat split. Qed.

(** * Further properties of the rules *)

Section SingleModelRules.
Context {A L : Type} `{Approximator A} `{LearningRate L}.

Lemma QLearning_fit_bad_call (dataset : list sample) (n_iterations : Z)
    (self : TD A L unit) :
  n_iterations <> 1%Z \/ length dataset <> 1%nat ->
  QLearning_fit dataset n_iterations self = (Raise AssertionError, self, []).
Proof.
  intros Hbad. apply bad_call_guard in Hbad.
  unfold QLearning_fit, TD_fit. rewrite Hbad. reflexivity.
Qed.

Lemma SARSA_fit_bad_call (draw_action : state -> action) (dataset : list sample)
    (n_iterations : Z) (self : TD A L (option action)) :
  n_iterations <> 1%Z \/ length dataset <> 1%nat ->
  SARSA_fit draw_action dataset n_iterations self = (Raise AssertionError, self, []).
Proof.
  intros Hbad. apply bad_call_guard in Hbad.
  unfold SARSA_fit, TD_fit. rewrite Hbad. reflexivity.
Qed.

(** X1.  [SARSA.fit] on one sample always returns.  On a non-absorbing
    sample it asks the policy once, in the next state, records the action
    drawn in [_next_action], and writes the value computed from the
    prediction at the next state and that action.  On an absorbing sample
    it does not ask the policy and leaves [_next_action] as it was. *)
Theorem SARSA_fit_next_action (draw_action : state -> action) (smp : sample)
    (self : TD A L (option action)) :
  let r := SARSA_fit draw_action [smp] 1 self in
  let s := s_state smp in
  let a := s_action smp in
  let ns := s_next_state smp in
  let q_current := predict (approximator self) s a in
  let alpha := fst (learning_rate_call (learning_rate self) s a) in
  outcome r = Ok tt /\
  if s_absorbing smp then
    ext (final r) = ext self /\
    drawn_states (calls r) = [] /\
    written_values (calls r)
    = [q_current + alpha * (s_reward smp + _gamma self * 0 - q_current)]
  else
    ext (final r) = Some (draw_action ns) /\
    drawn_states (calls r) = [ns] /\
    written_values (calls r)
    = [q_current + alpha * (s_reward smp
                            + _gamma self * predict (approximator self) ns (draw_action ns)
                            - q_current)].
Proof.
  cbv zeta. rewrite_run (SARSA_fit_run draw_action smp self).
  destruct (s_absorbing smp); repeat split.
Qed.

(** X2.  On a non-absorbing sample, with at least one discrete action,
    [QLearning.fit] returns and writes the value computed from the
    bootstrap [predict(next_state, a_max)], where [a_max] is a discrete
    action whose prediction in the next state no other discrete action
    exceeds. *)
Theorem QLearning_fit_bootstraps_maximum (smp : sample) (self : TD A L unit) :
  s_absorbing smp = false ->
  discrete_actions (approximator self) <> [] ->
  let s := s_state smp in
  let a := s_action smp in
  let ns := s_next_state smp in
  let q_current := predict (approximator self) s a in
  let alpha := fst (learning_rate_call (learning_rate self) s a) in
  exists a_max,
    In a_max (discrete_actions (approximator self)) /\
    (forall a', In a' (discrete_actions (approximator self)) ->
                predict (approximator self) ns a' <= predict (approximator self) ns a_max) /\
    QLearning_next_q ns self
    = (Ok (predict (approximator self) ns a_max), self, [EvPredictAll MainModel ns]) /\
    outcome (QLearning_fit [smp] 1 self) = Ok tt /\
    written_values (calls (QLearning_fit [smp] 1 self))
    = [q_current + alpha * (s_reward smp
                            + _gamma self * predict (approximator self) ns a_max
                            - q_current)].
Proof.
  intros Habs Hne. cbv zeta.
  destruct (max_QA_spec (approximator self) (s_next_state smp) Hne)
    as (a_max & Hmax & Hin & Hle).
  exists a_max. split; [exact Hin|]. split; [exact Hle|]. split.
  - unfold QLearning_next_q, call_max_QA, bind, ret. rewrite Hmax. reflexivity.
  - rewrite_run (QLearning_fit_run smp self). rewrite Habs, Hmax. split; reflexivity.
Qed.

(** X3.  On a freshly constructed SpeedyQLearning, whose shadow is a copy
    of the approximator, [fit] has the outcome of [QLearning.fit] on the
    same approximator, learning rate and non-absorbing sample, and writes
    the same value. *)
Theorem SpeedyQLearning_first_call_is_QLearning (approximator0 : A) (gamma : Q)
    (lr : L) (smp : sample) :
  let speedy := SpeedyQLearning_fit [with_absorbing false smp] 1
                  (SpeedyQLearning_init approximator0 gamma lr) in
  let plain := QLearning_fit [with_absorbing false smp] 1
                 (QLearning_init approximator0 gamma lr) in
  outcome speedy = outcome plain /\
  Forall2 Qeq (written_values (calls speedy)) (written_values (calls plain)) /\
  learning_rate (final speedy) = learning_rate (final plain).
Proof.
  cbv zeta.
  rewrite_run (SpeedyQLearning_fit_run (with_absorbing false smp)
                 (SpeedyQLearning_init approximator0 gamma lr)).
  rewrite_run (QLearning_fit_run (with_absorbing false smp)
                 (QLearning_init approximator0 gamma lr)).
  simpl. unfold deepcopy.
  destruct (max_QA (s_next_state smp) approximator0) as [[mq a_n]|]; simpl.
  - split; [reflexivity|]. split; [|reflexivity].
    constructor; [|constructor]. ring.
  - split; [reflexivity|]. split; [constructor | reflexivity].
Qed.

(** X4.  A call of [fit] of QLearning, SARSA or SpeedyQLearning that
    raises has changed nothing: the object is as it was before the call,
    and no learning rate was called and no approximator fitted. *)
Theorem fit_failure_is_atomic (dataset : list sample) (n_iterations : Z) (e : exn) :
  (forall self : TD A L unit,
      outcome (QLearning_fit dataset n_iterations self) = Raise e ->
      final (QLearning_fit dataset n_iterations self) = self /\
      written_values (calls (QLearning_fit dataset n_iterations self)) = [] /\
      learning_rate_calls (calls (QLearning_fit dataset n_iterations self)) = 0%nat) /\
  (forall draw_action (self : TD A L (option action)),
      outcome (SARSA_fit draw_action dataset n_iterations self) = Raise e ->
      final (SARSA_fit draw_action dataset n_iterations self) = self /\
      written_values (calls (SARSA_fit draw_action dataset n_iterations self)) = [] /\
      learning_rate_calls (calls (SARSA_fit draw_action dataset n_iterations self))
      = 0%nat) /\
  (forall self : TD A L A,
      outcome (SpeedyQLearning_fit dataset n_iterations self) = Raise e ->
      final (SpeedyQLearning_fit dataset n_iterations self) = self /\
      written_values (calls (SpeedyQLearning_fit dataset n_iterations self)) = [] /\
      learning_rate_calls (calls (SpeedyQLearning_fit dataset n_iterations self))
      = 0%nat).
Proof.
  destruct (single_sample dataset n_iterations) as [Hbad | [-> [smp ->]]].
  - split; [|split]; intros.
    + rewrite QLearning_fit_bad_call by exact Hbad. repeat split.
    + rewrite SARSA_fit_bad_call by exact Hbad. repeat split.
    + rewrite SpeedyQLearning_fit_bad_call by exact Hbad. repeat split.
  - split; [|split].
    + intros self. rewrite_run (QLearning_fit_run smp self).
      destruct (s_absorbing smp); [discriminate|].
      destruct (max_QA (s_next_state smp) (approximator self)) as [[mq a_n]|];
        [discriminate|]. intros _. repeat split.
    + intros draw_action self. rewrite_run (SARSA_fit_run draw_action smp self).
      destruct (s_absorbing smp); discriminate.
    + intros self. rewrite_run (SpeedyQLearning_fit_run smp self).
      destruct (max_QA (s_next_state smp) (approximator self)) as [[mc a_c]|];
        [|intros _; repeat split].
      destruct (max_QA (s_next_state smp) (ext self)) as [[mo a_o]|];
        [discriminate | intros _; repeat split].
Qed.

End SingleModelRules.

Section DoubleQLearningMore.
Context {A L : Type} `{Approximator A} `{LearningRate L}.

(** X5.  A DoubleQLearning object with two models and two schedules still
    has two models and two schedules after any call of [fit], and the call
    never fails on an index: it returns, or raises AssertionError, or fails
    inside the max-action-value helper. *)
Theorem DoubleQLearning_fit_keeps_two_sides (uniform : Q) (dataset : list sample)
    (n_iterations : Z) (self : TD (list A) (list L) unit) :
  length (approximator self) = 2%nat ->
  length (learning_rate self) = 2%nat ->
  let r := DoubleQLearning_fit uniform dataset n_iterations self in
  length (approximator (final r)) = 2%nat /\
  length (learning_rate (final r)) = 2%nat /\
  _gamma (final r) = _gamma self /\
  outcome r <> Raise IndexError /\
  outcome r <> Raise NotImplementedError.
Proof.
  intros Hla Hll. cbv zeta.
  destruct (single_sample dataset n_iterations) as [Hbad | [-> [smp ->]]].
  { rewrite DoubleQLearning_fit_bad_call by exact Hbad.
    repeat split; try assumption; discriminate. }
  destruct (two_sides uniform self Hla Hll) as (model & other & lr & Hm & Ho & Hl).
  rewrite_run (DoubleQLearning_fit_run uniform smp self model other lr Hla Hll Hm Ho Hl).
  destruct (s_absorbing smp).
  - simpl. rewrite !length_insert. repeat split; try assumption; discriminate.
  - destruct (max_QA (s_next_state smp) model) as [[mq a_n]|]; simpl;
      rewrite ?length_insert; repeat split; try assumption; discriminate.
Qed.

(** X6.  When the two models predict the same values for the discrete
    actions of the selected one in the next state, [DoubleQLearning.fit]
    writes the value that [QLearning.fit] writes for the selected model
    with the selected schedule: the double estimator is then the maximum
    action value. *)
Theorem DoubleQLearning_agreeing_models_is_QLearning (uniform : Q) (smp : sample)
    (self : TD (list A) (list L) unit) (model other : A) (lr : L) :
  length (approximator self) = 2%nat ->
  length (learning_rate self) = 2%nat ->
  approximator self !! chosen uniform = Some model ->
  approximator self !! (1 - chosen uniform)%nat = Some other ->
  learning_rate self !! chosen uniform = Some lr ->
  (forall a, In a (discrete_actions model) ->
             predict other (s_next_state smp) a == predict model (s_next_state smp) a) ->
  let double := DoubleQLearning_fit uniform [smp] 1 self in
  let plain := QLearning_fit [smp] 1 (mk_TD model lr (_gamma self) tt) in
  outcome double = outcome plain /\
  Forall2 Qeq (written_values (calls double)) (written_values (calls plain)).
Proof.
  intros Hla Hll Hm Ho Hl Hagree. cbv zeta.
  rewrite_run (DoubleQLearning_fit_run uniform smp self model other lr Hla Hll Hm Ho Hl).
  rewrite_run (QLearning_fit_run smp (mk_TD model lr (_gamma self) tt)).
  simpl.
  destruct (s_absorbing smp).
  { split; [reflexivity|]. constructor; [reflexivity | constructor]. }
  destruct (discrete_actions model) as [|a0 acts] eqn:Hacts.
  - unfold max_QA, predict_all. rewrite Hacts. simpl.
    split; [reflexivity | constructor].
  - destruct (max_QA_spec model (s_next_state smp)) as (a_n & Hmax & Hin & _).
    { rewrite Hacts. discriminate. }
    rewrite Hmax. simpl. split; [reflexivity|].
    constructor; [|constructor].
    rewrite (Hagree a_n) by (rewrite <- Hacts; exact Hin). reflexivity.
Qed.

End DoubleQLearningMore.

Lemma DoubleQLearning_fit_keeps_two_sides_witness :
  length (approximator (final (DoubleQLearning_fit 0.75 [ex_sample] 1 ex_double)))
  = 2%nat.
Proof.
  apply (DoubleQLearning_fit_keeps_two_sides 0.75 [ex_sample] 1 ex_double);
    reflexivity.
Defined.

Lemma DoubleQLearning_agreeing_models_is_QLearning_witness :
  Forall2 Qeq
    (written_values (calls (DoubleQLearning_fit 0.75 [ex_sample] 1
       (mk_TD [table_of 0 1; table_of 0 1] [ex_schedule; ex_schedule] 0.5 tt))))
    (written_values (calls (QLearning_fit [ex_sample] 1
       (mk_TD (table_of 0 1) ex_schedule 0.5 tt)))).
Proof.
  apply (DoubleQLearning_agreeing_models_is_QLearning 0.75 ex_sample
           (mk_TD [table_of 0 1; table_of 0 1] [ex_schedule; ex_schedule] 0.5 tt)
           (table_of 0 1) (table_of 0 1) ex_schedule); try reflexivity.
Defined.

Lemma QLearning_fit_bootstraps_maximum_witness :
  outcome (QLearning_fit [ex_sample] 1 (QLearning_init (table_of 0 1) 0.5 ex_schedule))
  = Ok tt /\
  written_values (calls (QLearning_fit [ex_sample] 1
                           (QLearning_init (table_of 0 1) 0.5 ex_schedule)))
  = [0 + 0.5 * (1 + 0.5 * 1 - 0)].
Proof.
  assert (Hne : discrete_actions
                  (approximator (QLearning_init (table_of 0 1) 0.5 ex_schedule)) <> [])
    by discriminate.
  destruct (QLearning_fit_bootstraps_maximum ex_sample
              (QLearning_init (table_of 0 1) 0.5 ex_schedule) eq_refl Hne)
    as (a_max & _ & _ & _ & Hok & _).
  split; [exact Hok | reflexivity].
Defined.

(** A table without actions makes the helper fail. *)
Lemma fit_failure_is_atomic_witness :
  final (QLearning_fit [ex_sample] 1
           (QLearning_init (mk_Tabular [] (mk_ndarray [1%nat; 0%nat] [])) 0.5 ex_schedule))
  = QLearning_init (mk_Tabular [] (mk_ndarray [1%nat; 0%nat] [])) 0.5 ex_schedule.
Proof.
  apply (proj1 (fit_failure_is_atomic (A := Tabular) (L := Schedule)
                  [ex_sample] 1 ValueError)).
  reflexivity.
Defined.

Section WeightedQLearningMore.
Context {A L : Type} `{Approximator A} `{LearningRate L}.
Variable np_sqrt : Q -> Q.

(** A well-formed call on a well-formed object, case by case. *)
Lemma WeightedQLearning_fit_cases (sh : list nat) (normal : nat -> nat -> Q -> Q -> Q)
    (smp : sample) (self : TD A L WeightedQLearning_attrs) :
  WeightedQLearning_wf sh (ext self) ->
  let s := s_state smp in
  let a := s_action smp in
  let ns := s_next_state smp in
  let q_current := predict (approximator self) s a in
  let alpha := fst (learning_rate_call (learning_rate self) s a) in
  let target q_next := s_reward smp + _gamma self * q_next in
  let q q_next := q_current + alpha * (target q_next - q_current) in
  let self1 q_next :=
    mk_TD (approximator_fit (approximator self) s a (q q_next))
          (snd (learning_rate_call (learning_rate self) s a)) (_gamma self)
          (ext self) in
  let after q_next (l : list event) :=
    match nd_index sh (s ++ a) with
    | Some i =>
        (Ok tt,
         set_ext (statistics_at np_sqrt i (target q_next) alpha (ext self)) (self1 q_next),
         l)
    | None => (Raise IndexError, self1 q_next, l)
    end in
  WeightedQLearning_fit np_sqrt normal [smp] 1 self =
  if s_absorbing smp then
    after 0 [EvPredict MainModel s a; EvLearningRate 0 s a; EvFit MainModel s a (q 0)]
  else
    match outcome (WeightedQLearning_next_q normal ns self) with
    | Ok q_next =>
        after q_next
          [EvPredict MainModel s a; EvPredictAll MainModel ns;
           EvLearningRate 0 s a; EvFit MainModel s a (q q_next)]
    | Raise e =>
        (Raise e, self, [EvPredict MainModel s a; EvPredictAll MainModel ns])
    end.
Proof.
  intros Hwf. cbv zeta.
  rewrite_run (WeightedQLearning_fit_run np_sqrt normal smp self).
  assert (Hstat : forall target alpha (self1 : TD A L WeightedQLearning_attrs)
                         (l : list event),
             ext self1 = ext self ->
             (outcome (WeightedQLearning_statistics np_sqrt
                         (s_state smp ++ s_action smp) target alpha self1),
              final (WeightedQLearning_statistics np_sqrt
                       (s_state smp ++ s_action smp) target alpha self1), l)
             = match nd_index sh (s_state smp ++ s_action smp) with
               | Some i =>
                   (Ok tt, set_ext (statistics_at np_sqrt i target alpha (ext self)) self1, l)
               | None => (Raise IndexError, self1, l)
               end).
  { intros target alpha self1 l Hext.
    rewrite (WeightedQLearning_statistics_run np_sqrt sh) by (rewrite Hext; exact Hwf).
    rewrite Hext.
    destruct (nd_index sh (s_state smp ++ s_action smp)); reflexivity. }
  destruct (s_absorbing smp).
  - apply Hstat. reflexivity.
  - destruct (outcome (WeightedQLearning_next_q normal (s_next_state smp) self));
      [|reflexivity].
    apply Hstat. reflexivity.
Qed.


(** The sigma loop of [_next_q] on an object that has a cell for every
    action. *)
Lemma WeightedQLearning_sigmas_ok (next_state : state)
    (self : TD A L WeightedQLearning_attrs) (n : nat) :
  (forall a : nat, (a < n)%nat ->
      is_Some (nd_get (_sigma (ext self)) (next_state ++ [Z.of_nat a]))) ->
  mapM (fun a => array_get self_sigma (next_state ++ [Z.of_nat a])) (seq 0 n) self
  = (Ok (map (fun a => default 0 (nd_get (_sigma (ext self))
                                    (next_state ++ [Z.of_nat a]))) (seq 0 n)),
     self, []).
Proof.
  intros Hsigma. apply mapM_ok. intros a Ha. apply in_seq in Ha.
  destruct (Hsigma a) as [v Hv]; [lia|].
  unfold array_get, self_sigma. rewrite Hv. reflexivity.
Qed.

(** X8.  With sampling disabled, [fit] on a non-absorbing sample raises
    NotImplementedError once the sigmas of the next state have been read;
    the object is unchanged.  An absorbing sample needs no bootstrap and
    is processed as with sampling enabled. *)
Theorem WeightedQLearning_without_sampling (normal : nat -> nat -> Q -> Q -> Q)
    (smp : sample) (self : TD A L WeightedQLearning_attrs) :
  _sampling (ext self) = false ->
  (forall a : nat,
      (a < length (discrete_actions (approximator self)))%nat ->
      is_Some (nd_get (_sigma (ext self)) (s_next_state smp ++ [Z.of_nat a]))) ->
  WeightedQLearning_fit np_sqrt normal [with_absorbing false smp] 1 self
  = (Raise NotImplementedError, self,
     [EvPredict MainModel (s_state smp) (s_action smp);
      EvPredictAll MainModel (s_next_state smp)]) /\
  calls (WeightedQLearning_fit np_sqrt normal [with_absorbing true smp] 1 self)
  = [EvPredict MainModel (s_state smp) (s_action smp);
     EvLearningRate 0 (s_state smp) (s_action smp);
     EvFit MainModel (s_state smp) (s_action smp)
       (predict (approximator self) (s_state smp) (s_action smp)
        + fst (learning_rate_call (learning_rate self) (s_state smp) (s_action smp))
          * (s_reward smp + _gamma self * 0
             - predict (approximator self) (s_state smp) (s_action smp)))].
Proof.
  intros Hsampling Hsigma. split.
  - assert (Hnext : outcome (WeightedQLearning_next_q normal (s_next_state smp) self)
                    = Raise NotImplementedError).
    { pose proof (WeightedQLearning_sigmas_ok (s_next_state smp) self
                    (length (predict_all (approximator self) (s_next_state smp))))
        as Hsig.
      unfold predict_all in Hsig at 1. rewrite length_map in Hsig.
      specialize (Hsig Hsigma).
      unfold WeightedQLearning_next_q.
      rewrite outcome_bind. cbn [outcome final call_predict_all fst snd].
      rewrite (bind_quiet_ok _ _ _ _ _ Hsig).
      rewrite (bind_quiet_ok (gets _) _ self _ self eq_refl).
      rewrite (bind_quiet_ok (gets _) _ self _ self eq_refl).
      rewrite Hsampling. reflexivity. }
    rewrite_run (WeightedQLearning_fit_run np_sqrt normal (with_absorbing false smp) self).
    simpl. rewrite Hnext. reflexivity.
  - rewrite_run (WeightedQLearning_fit_run np_sqrt normal (with_absorbing true smp) self).
    reflexivity.
Qed.

End WeightedQLearningMore.


Lemma WeightedQLearning_without_sampling_witness :
  outcome (WeightedQLearning_fit sqrt_approx ex_normal [ex_sample] 1
             ex_weighted_no_sampling)
  = Raise NotImplementedError.
Proof.
  assert (Hcells : forall a : nat,
             (a < length (discrete_actions (approximator ex_weighted_no_sampling)))%nat ->
             is_Some (nd_get (_sigma (ext ex_weighted_no_sampling))
                        (s_next_state ex_sample ++ [Z.of_nat a]))).
  { intros [|[|a]] Ha.
    - eexists. reflexivity.
    - eexists. reflexivity.
    - simpl in Ha. lia. }
  pose proof (proj1 (WeightedQLearning_without_sampling sqrt_approx ex_normal
                       ex_sample ex_weighted_no_sampling eq_refl Hcells)) as Hrun.
  change (with_absorbing false ex_sample) with ex_sample in Hrun.
  rewrite Hrun. reflexivity.
Defined.

(** ** WeightedQLearning: what the statistics block computes *)

Lemma running_mean_step (n mean target : Q) :
  0 <= n ->
  (n + 1) * (mean + (target - mean) / (n + 1)) == n * mean + target.
Proof. intros Hn. field. lra. Qed.

Lemma Qsquare_nonneg (x : Q) : 0 <= x * x.
Proof.
  destruct (Qlt_le_dec x 0) as [Hneg | Hpos].
  - assert (Heq : x * x == (- x) * (- x)) by ring.
    rewrite Heq. apply Qmult_le_0_compat; lra.
  - apply Qmult_le_0_compat; exact Hpos.
Qed.

Lemma running_moments_step (n mean mean2 target : Q) :
  0 <= n -> mean * mean <= mean2 ->
  (mean + (target - mean) / (n + 1)) * (mean + (target - mean) / (n + 1))
  <= mean2 + (target * target - mean2) / (n + 1).
Proof.
  intros Hn Hm. unfold Qdiv.
  assert (Hd : / (n + 1) * (n + 1) == 1) by (field; lra).
  assert (Hd0 : 0 < / (n + 1)) by (apply Qinv_lt_0_compat; lra).
  revert Hd Hd0. generalize (/ (n + 1)). intros d Hd Hd0.
  assert (Hdn : 0 <= d * n) by (apply Qmult_le_0_compat; lra).
  assert (Hd1 : d <= 1) by lra.
  pose proof (Qsquare_nonneg (mean - target)) as Hsq.
  assert (Hconv : 0 <= d * (1 - d) * ((mean - target) * (mean - target))).
  { apply Qmult_le_0_compat; [|exact Hsq]. apply Qmult_le_0_compat; lra. }
  assert (Hlin : 0 <= (1 - d) * (mean2 - mean * mean)).
  { apply Qmult_le_0_compat; lra. }
  lra.
Qed.

Lemma statistics_at_moments (np_sqrt : Q -> Q) (sh : list nat) (i : nat)
    (target alpha : Q) (w : WeightedQLearning_attrs) :
  (i < size_of sh)%nat ->
  WeightedQLearning_inv sh w -> moments_ok w ->
  moments_ok (statistics_at np_sqrt i target alpha w).
Proof.
  unfold WeightedQLearning_inv.
  intros Hi (Hwf & _ & _ & Hnn) Hmom.
  destruct w as [smp pr [sn dn] [ss ds] [sq dq] [sq2 dq2] [sw dw]].
  unfold WeightedQLearning_wf, nd_wf, counts_nonneg, moments_ok in *. simpl in *.
  destruct Hwf as ((-> & Ln) & (-> & Ls) & (-> & Lq) & (-> & Lq2) & (-> & Lw)).
  destruct (lookup_lt_is_Some_2 dn i) as [n Hn]; [lia|].
  destruct (lookup_lt_is_Some_2 dq i) as [qm Hq]; [lia|].
  destruct (lookup_lt_is_Some_2 dq2 i) as [q2 Hq2]; [lia|].
  destruct (lookup_lt_is_Some_2 dw i) as [wv Hw]; [lia|].
  assert (Hn0 : 0 <= n).
  { rewrite Forall_forall in Hnn. apply Hnn. eapply list_elem_of_lookup_2. exact Hn. }
  destruct (Hmom i qm q2 wv Hq Hq2 Hw) as [Hm Hv].
  rewrite Hn, Hq, Hq2, Hw. simpl.
  intros k qm' q2' wv'.
  destruct (decide (i = k)) as [<- | Hne].
  - rewrite !list_lookup_insert_eq by lia.
    intros Hk1 Hk2 Hk3. injection Hk1 as <-. injection Hk2 as <-. injection Hk3 as <-.
    split.
    + apply running_moments_step; assumption.
    + pose proof (Qsquare_nonneg (1 - alpha)).
      pose proof (Qsquare_nonneg alpha).
      assert (0 <= (1 - alpha) * (1 - alpha) * wv)
        by (apply Qmult_le_0_compat; assumption).
      lra.
  - rewrite !list_lookup_insert_ne by exact Hne. apply Hmom.
Qed.

Section WeightedQLearningStatistics.
Context {A L : Type} `{Approximator A} `{LearningRate L}.
Variable np_sqrt : Q -> Q.

Lemma WeightedQLearning_run_moments (sh : list nat)
    (inputs : list ((nat -> nat -> Q -> Q -> Q) * list sample * Z)) :
  forall self : TD A L WeightedQLearning_attrs,
    WeightedQLearning_inv sh (ext self) -> moments_ok (ext self) ->
    moments_ok (ext (WeightedQLearning_run np_sqrt inputs self)).
Proof.
  induction inputs as [|[[normal dataset] n_iterations] rest IH]; intros self Hinv Hmom.
  - exact Hmom.
  - simpl. apply IH.
    + apply WeightedQLearning_fit_inv. exact Hinv.
    + destruct (WeightedQLearning_fit_ext np_sqrt sh normal dataset n_iterations self
                  (proj1 Hinv))
        as [-> | (smp & i & target & alpha & _ & Hi & ->)].
      * exact Hmom.
      * apply (statistics_at_moments np_sqrt sh); try assumption.
        eapply nd_index_lt. exact Hi.
Qed.

Lemma WeightedQLearning_init_moments (approximator0 : A) (gamma : Q) (lr : L)
    (sampling : bool) (precision : Q) :
  moments_ok (ext (WeightedQLearning_init approximator0 gamma lr sampling precision)).
Proof.
  unfold moments_ok. simpl. intros i qm q2 wv Hq Hq2 Hw.
  apply lookup_replicate in Hq, Hq2, Hw.
  destruct Hq as [-> _], Hq2 as [-> _], Hw as [-> _]. split; discriminate.
Qed.

(** X9.  On an object that was constructed and then only changed by
    [fit], a call of [fit] that returns raises the visitation count of the
    sample's key by one and moves the two running means of that key so
    that count times mean grows by the target, respectively by its square;
    the target is [reward + gamma * q_next], with [q_next = 0] on an
    absorbing sample. *)
Theorem WeightedQLearning_fit_running_means (approximator0 : A) (gamma : Q) (lr : L)
    (sampling : bool) (precision : Q)
    (inputs : list ((nat -> nat -> Q -> Q -> Q) * list sample * Z))
    (normal : nat -> nat -> Q -> Q -> Q) (smp : sample) :
  let self := WeightedQLearning_run np_sqrt inputs
                (WeightedQLearning_init approximator0 gamma lr sampling precision) in
  let r := WeightedQLearning_fit np_sqrt normal [smp] 1 self in
  let key := s_state smp ++ s_action smp in
  outcome r = Ok tt ->
  exists n q_mean q2_mean q_next q_mean' q2_mean',
    (if s_absorbing smp then q_next = 0
     else outcome (WeightedQLearning_next_q normal (s_next_state smp) self) = Ok q_next) /\
    nd_get (_n_updates (ext self)) key = Some n /\
    nd_get (_Q (ext self)) key = Some q_mean /\
    nd_get (_Q2 (ext self)) key = Some q2_mean /\
    nd_get (_n_updates (ext (final r))) key = Some (n + 1) /\
    nd_get (_Q (ext (final r))) key = Some q_mean' /\
    nd_get (_Q2 (ext (final r))) key = Some q2_mean' /\
    (n + 1) * q_mean' == n * q_mean + (s_reward smp + _gamma self * q_next) /\
    (n + 1) * q2_mean' == n * q2_mean + (s_reward smp + _gamma self * q_next) ^ 2.
Proof.
  intros self r key. subst r key.
  pose proof (WeightedQLearning_run_inv np_sqrt (shape approximator0) inputs _
    (WeightedQLearning_init_inv approximator0 gamma lr sampling precision))
    as Hinv.
  fold self in Hinv. destruct Hinv as (Hwf & _ & _ & Hnn).
  rewrite_run (WeightedQLearning_fit_cases np_sqrt (shape approximator0) normal smp
                 self Hwf).
  assert (Hcell : forall q_next i,
             nd_index (shape approximator0) (s_state smp ++ s_action smp) = Some i ->
             let target := s_reward smp + _gamma self * q_next in
             let alpha := fst (learning_rate_call (learning_rate self)
                                 (s_state smp) (s_action smp)) in
             let w' := statistics_at np_sqrt i target alpha (ext self) in
             exists n q_mean q2_mean q_mean' q2_mean',
               nd_get (_n_updates (ext self)) (s_state smp ++ s_action smp) = Some n /\
               nd_get (_Q (ext self)) (s_state smp ++ s_action smp) = Some q_mean /\
               nd_get (_Q2 (ext self)) (s_state smp ++ s_action smp) = Some q2_mean /\
               nd_get (_n_updates w') (s_state smp ++ s_action smp) = Some (n + 1) /\
               nd_get (_Q w') (s_state smp ++ s_action smp) = Some q_mean' /\
               nd_get (_Q2 w') (s_state smp ++ s_action smp) = Some q2_mean' /\
               (n + 1) * q_mean' == n * q_mean + target /\
               (n + 1) * q2_mean' == n * q2_mean + target ^ 2).
  { intros q_next i Hi target alpha w'. subst w'.
    destruct (ext self) as [smpl pr [sn dn] [ss ds] [sq dq] [sq2 dq2] [sw dw]].
    unfold WeightedQLearning_wf, nd_wf, counts_nonneg in *. simpl in *.
    destruct Hwf as ((-> & Ln) & (-> & Ls) & (-> & Lq) & (-> & Lq2) & (-> & Lw)).
    pose proof (nd_index_lt _ _ _ Hi) as Hlt.
    destruct (lookup_lt_is_Some_2 dn i) as [n Hn]; [lia|].
    destruct (lookup_lt_is_Some_2 dq i) as [qm Hq]; [lia|].
    destruct (lookup_lt_is_Some_2 dq2 i) as [q2 Hq2]; [lia|].
    assert (Hn0 : 0 <= n).
    { rewrite Forall_forall in Hnn. apply Hnn. eapply list_elem_of_lookup_2. exact Hn. }
    unfold nd_get, statistics_at. simpl. rewrite Hi, Hn, Hq, Hq2. simpl.
    rewrite !list_lookup_insert_eq by lia.
    exists n, qm, q2. eexists. eexists.
    repeat split.
    - apply running_mean_step. exact Hn0.
    - apply running_mean_step. exact Hn0. }
  destruct (s_absorbing smp).
  - destruct (nd_index (shape approximator0) (s_state smp ++ s_action smp)) as [i|] eqn:Hi;
      [|discriminate].
    intros _. simpl.
    destruct (Hcell 0 i eq_refl) as (n & qm & q2 & qm' & q2' & Hrest).
    exists n, qm, q2, 0, qm', q2'. split; [reflexivity | exact Hrest].
  - destruct (outcome (WeightedQLearning_next_q normal (s_next_state smp) self))
      as [q_next|e]; [|discriminate].
    destruct (nd_index (shape approximator0) (s_state smp ++ s_action smp)) as [i|] eqn:Hi;
      [|discriminate].
    intros _. simpl.
    destruct (Hcell q_next i eq_refl) as (n & qm & q2 & qm' & q2' & Hrest).
    exists n, qm, q2, q_next, qm', q2'. split; [reflexivity | exact Hrest].
Qed.

(** In exact arithmetic (not on binary64 numbers, where the difference
    of the two means can round below zero, see [Binary64]), on an object
    that was constructed and then only changed by [fit], the argument of
    the square root is never negative: in every
    cell the count and the weight variance are not negative and the mean
    of the squares is at least the square of the mean, so that for a count
    above 1 the estimator variance
    [n * (Q2 - Q ** 2) / (n - 1) * weights_var] is not negative. *)
Theorem WeightedQLearning_variance_not_negative (approximator0 : A) (gamma : Q)
    (lr : L) (sampling : bool) (precision : Q)
    (inputs : list ((nat -> nat -> Q -> Q -> Q) * list sample * Z))
    (key : list Z) (n q_mean q2_mean w_var : Q) :
  let self := WeightedQLearning_run np_sqrt inputs
                (WeightedQLearning_init approximator0 gamma lr sampling precision) in
  nd_get (_n_updates (ext self)) key = Some n ->
  nd_get (_Q (ext self)) key = Some q_mean ->
  nd_get (_Q2 (ext self)) key = Some q2_mean ->
  nd_get (_weights_var (ext self)) key = Some w_var ->
  0 <= n /\ q_mean ^ 2 <= q2_mean /\ 0 <= w_var /\
  (1 < n -> 0 <= n * (q2_mean - q_mean ^ 2) / (n - 1) * w_var).
Proof.
  intros self.
  pose proof (WeightedQLearning_init_inv approximator0 gamma lr sampling precision)
    as Hinv0.
  pose proof (WeightedQLearning_run_inv np_sqrt (shape approximator0) inputs _ Hinv0)
    as Hinv.
  pose proof (WeightedQLearning_run_moments (shape approximator0) inputs _ Hinv0
                (WeightedQLearning_init_moments approximator0 gamma lr sampling precision))
    as Hmom.
  fold self in Hinv, Hmom. destruct Hinv as (Hwf & _ & _ & Hnn).
  destruct (ext self) as [smpl pr [sn dn] [ss ds] [sq dq] [sq2 dq2] [sw dw]].
  unfold WeightedQLearning_wf, nd_wf, counts_nonneg, moments_ok, nd_get in *.
  simpl in *.
  destruct Hwf as ((-> & Ln) & (-> & Ls) & (-> & Lq) & (-> & Lq2) & (-> & Lw)).
  destruct (nd_index (shape approximator0) key) as [i|]; [|discriminate].
  intros Hn Hq Hq2 Hw.
  assert (Hn0 : 0 <= n).
  { rewrite Forall_forall in Hnn. apply Hnn. eapply list_elem_of_lookup_2. exact Hn. }
  destruct (Hmom i q_mean q2_mean w_var Hq Hq2 Hw) as [Hm Hv].
  split; [exact Hn0|]. split; [exact Hm|]. split; [exact Hv|].
  intros Hn1.
  apply Qmult_le_0_compat; [|exact Hv].
  apply Qle_shift_div_l; [lra|]. rewrite Qmult_0_l.
  apply Qmult_le_0_compat; [exact Hn0 | lra].
Qed.

End WeightedQLearningStatistics.

Section WeightedQLearningFrame.
Context {A L : Type} `{Approximator A} `{LearningRate L}.
Variable np_sqrt : Q -> Q.

(** X11.  Let every key, of the samples and of the cell looked at, have
    one component per axis of the statistics arrays.  On an object that
    was constructed and then only changed by [fit], a call of [fit] leaves
    the five statistics of every cell other than the cell of its sample as
    they were, whether it returns or raises; in particular the floor
    applied to the whole sigma array changes no other cell. *)
Theorem WeightedQLearning_fit_other_cells (approximator0 : A) (gamma : Q) (lr : L)
    (sampling : bool) (precision : Q)
    (inputs : list ((nat -> nat -> Q -> Q -> Q) * list sample * Z))
    (normal : nat -> nat -> Q -> Q -> Q) (dataset : list sample) (n_iterations : Z)
    (key' : list Z) :
  let self := WeightedQLearning_run np_sqrt inputs
                (WeightedQLearning_init approximator0 gamma lr sampling precision) in
  let self' := final (WeightedQLearning_fit np_sqrt normal dataset n_iterations self) in
  Forall (fun input => full_key (shape approximator0) (snd (fst input))) inputs ->
  full_key (shape approximator0) dataset ->
  length key' = length (shape approximator0) ->
  (forall smp, dataset = [smp] ->
     nd_index (shape approximator0) key'
     <> nd_index (shape approximator0) (s_state smp ++ s_action smp)) ->
  nd_get (_n_updates (ext self')) key' = nd_get (_n_updates (ext self)) key' /\
  nd_get (_sigma (ext self')) key' = nd_get (_sigma (ext self)) key' /\
  nd_get (_Q (ext self')) key' = nd_get (_Q (ext self)) key' /\
  nd_get (_Q2 (ext self')) key' = nd_get (_Q2 (ext self)) key' /\
  nd_get (_weights_var (ext self')) key' = nd_get (_weights_var (ext self)) key'.
Proof.
  intros self self'. subst self'. intros _ _ _ Hother.
  pose proof (WeightedQLearning_run_inv np_sqrt (shape approximator0) inputs _
    (WeightedQLearning_init_inv approximator0 gamma lr sampling precision))
    as Hinv.
  fold self in Hinv. destruct Hinv as (Hwf & Hfl & _ & _).
  destruct (WeightedQLearning_fit_ext np_sqrt (shape approximator0) normal dataset
              n_iterations self Hwf)
    as [-> | (smp & i & target & alpha & -> & Hi & ->)].
  { repeat split. }
  specialize (Hother smp eq_refl). rewrite Hi in Hother.
  destruct (ext self) as [smpl pr [sn dn] [ss ds] [sq dq] [sq2 dq2] [sw dw]].
  unfold WeightedQLearning_wf, nd_wf, sigma_floored, nd_get, statistics_at in *.
  simpl in *.
  destruct Hwf as ((-> & Ln) & (-> & Ls) & (-> & Lq) & (-> & Lq2) & (-> & Lw)).
  assert (Hfloor : forall j x, ds !! j = Some x ->
             (if Qltb x sigma_floor then sigma_floor else x) = x).
  { intros j x Hx.
    assert (Hle : sigma_floor <= x).
    { rewrite Forall_forall in Hfl. apply Hfl. eapply list_elem_of_lookup_2. exact Hx. }
    apply Qltb_false in Hle. rewrite Hle. reflexivity. }
  destruct (Qltb 1 (default 0 (dn !! i) + 1)); simpl;
    (destruct (nd_index (shape approximator0) key') as [j|]; [|repeat split]);
    assert (Hij : i <> j) by congruence;
    rewrite ?list_lookup_fmap, !list_lookup_insert_ne by exact Hij;
    repeat split.
  destruct (ds !! j) as [x|] eqn:Hx; [|reflexivity]. simpl.
  rewrite (Hfloor j x Hx). reflexivity.
Qed.

End WeightedQLearningFrame.

(** The second visit of the cell of state [0] and action [0] leaves the
    cell of action [1] alone. *)
Lemma WeightedQLearning_fit_other_cells_witness :
  nd_get (_sigma (ext (final (WeightedQLearning_fit sqrt_approx ex_normal
                                [ex_sample] 1
                                (WeightedQLearning_run sqrt_approx
                                   [(ex_normal, [ex_sample], 1%Z)] ex_weighted)))))
         [0%Z; 1%Z]
  = Some 1e10.
Proof.
  transitivity (nd_get (_sigma (ext (WeightedQLearning_run sqrt_approx
                                       [(ex_normal, [ex_sample], 1%Z)] ex_weighted)))
                       [0%Z; 1%Z]).
  - exact (proj1 (proj2 (WeightedQLearning_fit_other_cells (A := Tabular) (L := Schedule)
             sqrt_approx (table_of 0 1) 0.5 ex_schedule true 3
             [(ex_normal, [ex_sample], 1%Z)] ex_normal [ex_sample] 1 [0%Z; 1%Z]
             ltac:(repeat constructor; intros smp [<- | []]; reflexivity)
             ltac:(intros smp [<- | []]; reflexivity)
             eq_refl
             ltac:(intros smp Hsmp; injection Hsmp as <-; discriminate)))).
  - reflexivity.
Defined.

(** The second visit of a cell: count 1 goes to 2. *)
Lemma WeightedQLearning_fit_running_means_witness :
  exists n, nd_get (_n_updates (ext (final
              (WeightedQLearning_fit sqrt_approx ex_normal [ex_absorbing_sample] 1
                 (WeightedQLearning_run sqrt_approx
                    [(ex_normal, [ex_absorbing_sample], 1%Z)] ex_weighted)))))
              [0%Z; 1%Z] = Some (n + 1) /\ n == 1.
Proof.
  assert (Hok : outcome (WeightedQLearning_fit sqrt_approx ex_normal
                           [ex_absorbing_sample] 1
                           (WeightedQLearning_run sqrt_approx
                              [(ex_normal, [ex_absorbing_sample], 1%Z)]
                              (WeightedQLearning_init (table_of 0 1) 0.5 ex_schedule
                                 true 3)))
                = Ok tt) by (vm_compute; reflexivity).
  destruct (WeightedQLearning_fit_running_means (A := Tabular) (L := Schedule)
              sqrt_approx (table_of 0 1) 0.5 ex_schedule true 3
              [(ex_normal, [ex_absorbing_sample], 1%Z)] ex_normal ex_absorbing_sample
              Hok)
    as (n & qm & q2 & q_next & qm' & q2' & _ & Hn & _ & _ & Hn' & _).
  exists n. split; [exact Hn'|].
  vm_compute in Hn. injection Hn as <-. reflexivity.
Defined.

(** After two visits with targets 1 and 1 the variance estimate is 0. *)
Lemma WeightedQLearning_variance_not_negative_witness :
  exists n q_mean q2_mean w_var,
    nd_get (_n_updates (ext (WeightedQLearning_run sqrt_approx
       [(ex_normal, [ex_absorbing_sample], 1%Z); (ex_normal, [ex_absorbing_sample], 1%Z)]
       ex_weighted))) [0%Z; 1%Z] = Some n /\
    1 < n /\
    0 <= n * (q2_mean - q_mean ^ 2) / (n - 1) * w_var.
Proof.
  eexists _, _, _, _. split; [vm_compute; reflexivity|]. split; [reflexivity|].
  refine (proj2 (proj2 (proj2 (WeightedQLearning_variance_not_negative
            (A := Tabular) (L := Schedule)
            sqrt_approx (table_of 0 1) 0.5 ex_schedule true 3
            [(ex_normal, [ex_absorbing_sample], 1%Z);
             (ex_normal, [ex_absorbing_sample], 1%Z)]
            [0%Z; 1%Z] _ _ _ _ _ _ _ _))) _).
  - vm_compute. reflexivity.
  - vm_compute. reflexivity.
  - vm_compute. reflexivity.
  - vm_compute. reflexivity.
  - reflexivity.
Defined.
